(** * waypoint_maker: a teleoperated waypoint recorder

    A shallow embedding of [src/waypoint_maker.cpp].  The node forwards
    gamepad axes to a velocity topic, remembers the last localisation pose,
    and, when button 2 was seen since the last loop iteration, appends
    [x,y,yaw] to a CSV file and publishes an arrow marker.

    Doubles are the kernel's binary64 floats.  The C++ standard library
    pieces the program relies on (stream and printf formatting of doubles,
    [atan2], [std::vector::operator[]], [int] increment) are modelled in the
    first modules; the class itself follows in [Section Node]. *)

From Stdlib Require Import ZArith String Ascii List Floats Lia.
From stdpp Require Import base option list.

(** A decimal literal denotes the nearest double, as it does in C++. *)
Set Warnings "-inexact-float".
Local Open Scope Z_scope.

(** ** Decimal rendering of doubles *)

Module Fmt.

Local Open Scope string_scope.
Local Open Scope Z_scope.

(** The line feed written by ["\n"]. *)
Definition nl : string := String "010"%char EmptyString.

Definition digit (d : Z) : ascii := ascii_of_nat (48 + Z.to_nat d).

(** The [w] least significant decimal digits of [n], most significant
    first, padded with zeros. *)
Fixpoint fixed_digits (w : nat) (n : Z) : string :=
  match w with
  | O => EmptyString
  | S w' => fixed_digits w' (n / 10) ++ String (digit (n mod 10)) EmptyString
  end.

(** Number of decimal digits of [n] (1 for [n <= 9]). *)
Fixpoint count_digits (fuel : nat) (n : Z) : nat :=
  match fuel with
  | O => 1%nat
  | S fuel' => if n <? 10 then 1%nat else S (count_digits fuel' (n / 10))
  end.

Definition num_digits (n : Z) : nat := count_digits (Z.to_nat (Z.log2 n)) n.

Definition decimal (n : Z) : string := fixed_digits (num_digits n) n.

(** Round the positive rational [n / d] to the nearest integer, ties to
    even: the conversion printf performs in the default rounding mode. *)
Definition round_half_even (n d : Z) : Z :=
  let q := n / d in
  let r := n mod d in
  match 2 * r ?= d with
  | Lt => q
  | Gt => q + 1
  | Eq => if Z.even q then q else q + 1
  end.

(** A finite double [m * 2^e] as a fraction of positive integers. *)
Definition fraction (m : positive) (e : Z) : Z * Z :=
  if 0 <=? e then (Z.pos m * 2 ^ e, 1) else (Z.pos m, 2 ^ (- e)).

(** Multiply the fraction [n / d] by [10 ^ k], [k] of either sign. *)
Definition scale10 (k : Z) (nd : Z * Z) : Z * Z :=
  let '(n, d) := nd in
  if 0 <=? k then (n * 10 ^ k, d) else (n, d * 10 ^ (- k)).

(** Largest [k >= 0] with [d * 10^k <= n], for [d <= n]. *)
Fixpoint log10_up (fuel : nat) (n d : Z) : Z :=
  match fuel with
  | O => 0
  | S fuel' => if d * 10 <=? n then 1 + log10_up fuel' n (d * 10) else 0
  end.

(** Smallest [k >= 1] with [d <= n * 10^k], for [n < d]. *)
Fixpoint log10_down (fuel : nat) (n d : Z) : Z :=
  match fuel with
  | O => 1
  | S fuel' => if d <=? n * 10 then 1 else 1 + log10_down fuel' (n * 10) d
  end.

(** [floor (log10 (n / d))] for a positive fraction. *)
Definition floor_log10 (nd : Z * Z) : Z :=
  let '(n, d) := nd in
  if d <=? n then log10_up (Z.to_nat (Z.log2 n)) n d
  else - log10_down (Z.to_nat (Z.log2 d)) n d.

(** Drop the zeros that end a digit string. *)
Fixpoint strip_zeros (s : string) : string :=
  match s with
  | EmptyString => EmptyString
  | String c r =>
      match strip_zeros r with
      | EmptyString => if Ascii.eqb c "0" then EmptyString else String c EmptyString
      | r' => String c r'
      end
  end.

Definition sign_prefix (neg : bool) : string := if neg then "-" else "".

(** The fractional part after the point, omitted with the point when no
    digit is left (no [#] flag, no [showpoint]). *)
Definition point_frac (frac : string) : string :=
  match strip_zeros frac with
  | EmptyString => EmptyString
  | f => "." ++ f
  end.

Fixpoint zeros (k : nat) : string :=
  match k with
  | O => EmptyString
  | S k' => String "0" (zeros k')
  end.

(** Six significant digits of a positive fraction and its decimal
    exponent after rounding ([999999.5] becomes [1.00000e+06]). *)
Definition significand6 (nd : Z * Z) : Z * Z :=
  let x := floor_log10 nd in
  let '(n, d) := scale10 (5 - x) nd in
  let sig := round_half_even n d in
  if sig =? 1000000 then (100000, x + 1) else (sig, x).

(** Style [e] of [%g]: [d.ddddde+XX], at least two exponent digits. *)
Definition exp_style (sig x : Z) : string :=
  let ds := fixed_digits 6 sig in
  let ex := Z.abs x in
  substring 0 1 ds ++ point_frac (substring 1 5 ds)
    ++ "e" ++ (if x <? 0 then "-" else "+")
    ++ fixed_digits (Nat.max 2 (num_digits ex)) ex.

(** Style [f] of [%g], used when [-4 <= x < 6]. *)
Definition fix_style (sig x : Z) : string :=
  let ds := fixed_digits 6 sig in
  if 0 <=? x then
    let k := S (Z.to_nat x) in
    substring 0 k ds ++ point_frac (substring k (6 - k) ds)
  else
    "0" ++ point_frac (zeros (Z.to_nat (- x - 1)) ++ ds).

(** [printf("%g", v)] with the default precision 6. *)
Definition printf_g (v : float) : string :=
  match Prim2SF v with
  | S754_nan => "nan"
  | S754_infinity neg => sign_prefix neg ++ "inf"
  | S754_zero neg => sign_prefix neg ++ "0"
  | S754_finite neg m e =>
      let '(sig, x) := significand6 (fraction m e) in
      sign_prefix neg ++
      (if (-4 <=? x) && (x <? 6) then fix_style sig x else exp_style sig x)
  end.

(** [printf("%f", v)]: six digits after the point. *)
Definition printf_f (v : float) : string :=
  match Prim2SF v with
  | S754_nan => "nan"
  | S754_infinity neg => sign_prefix neg ++ "inf"
  | S754_zero neg => sign_prefix neg ++ "0.000000"
  | S754_finite neg m e =>
      let '(n, d) := scale10 6 (fraction m e) in
      let r := round_half_even n d in
      sign_prefix neg ++ decimal (r / 1000000) ++ "." ++ fixed_digits 6 (r mod 1000000)
  end.

(** [std::ostream& operator<<(double)] on a stream left in its default
    state: [floatfield] unset and precision 6, which [num_put] renders as
    [%.6g] in the classic locale. *)
Definition ostream_double (v : float) : string := printf_g v.

End Fmt.

(** ** ROS message types

    Only the fields the node reads or writes are kept; ROS message
    constructors zero-initialise every numeric field. *)

Module Point.
Record t := mk { x : float; y : float; z : float }.
End Point.

Module Quaternion.
Record t := mk { x : float; y : float; z : float; w : float }.
End Quaternion.

Module Pose.
Record t := mk { position : Point.t; orientation : Quaternion.t }.
End Pose.

Module PoseWithCovariance.
Record t := mk { pose : Pose.t; covariance : list float }.
End PoseWithCovariance.

Module Header.
Record t := mk { stamp : Z; frame_id : string }.
End Header.

Module PoseWithCovarianceStamped.
Record t := mk { header : Header.t; pose : PoseWithCovariance.t }.
End PoseWithCovarianceStamped.

Module Vector3.
Record t := mk { x : float; y : float; z : float }.
End Vector3.

Module Twist.
Record t := mk { linear : Vector3.t; angular : Vector3.t }.
End Twist.

Module Joy.
(** [float32[] axes] (every float32 is a double) and [int32[] buttons]. *)
Record t := mk { axes : list float; buttons : list Z }.
End Joy.

Module ColorRGBA.
Record t := mk { r : float; g : float; b : float; a : float }.
End ColorRGBA.

Module Marker.
Definition ARROW : Z := 0.
Definition ADD : Z := 0.
Record t := mk {
  header : Header.t;
  ns : string;
  id : Z;
  type : Z;
  action : Z;
  pose : Pose.t;
  scale : Vector3.t;
  color : ColorRGBA.t
}.
End Marker.

(** ** The pieces of the C and C++ libraries the node calls *)

Module Libm.

Local Open Scope float_scope.

Definition pi : float := 0x1.921fb54442d18p+1.
Definition pi_2 : float := 0x1.921fb54442d18p+0.
Definition pi_4 : float := 0x1.921fb54442d18p-1.
Definition pi_3_4 : float := 0x1.2d97c7f3321d2p+1.

Inductive sign := Pos | Neg.
Inductive kind := Zero | Finite | Inf.

Definition signed (s : sign) (v : float) : float :=
  match s with Pos => v | Neg => - v end.

Definition sort (v : float) : option (sign * kind) :=
  match classify v with
  | NaN => None
  | PInf => Some (Pos, Inf)
  | NInf => Some (Neg, Inf)
  | PNormal | PSubn => Some (Pos, Finite)
  | NNormal | NSubn => Some (Neg, Finite)
  | PZero => Some (Pos, Zero)
  | NZero => Some (Neg, Zero)
  end.

(** [atan2 (y, x)] of <cmath>.  ISO C Annex F (F.10.1.4) fixes the result
    when an argument is a zero, an infinity or a NaN; those cases are
    written out, with the multiples of pi rounded to the nearest double.
    For two finite non-zero arguments the standard leaves the rounding to
    the library, and the value is the parameter [generic]. *)
Definition atan2 (generic : float -> float -> float) (y x : float) : float :=
  match sort y, sort x with
  | None, _ | _, None => nan
  | Some (sy, Zero), Some (Neg, _) => signed sy pi
  | Some (sy, Zero), Some (Pos, _) => signed sy 0
  | Some (sy, Finite), Some (_, Zero) => signed sy pi_2
  | Some (sy, Finite), Some (Neg, Inf) => signed sy pi
  | Some (sy, Finite), Some (Pos, Inf) => signed sy 0
  | Some (sy, Finite), Some (_, Finite) => generic y x
  | Some (sy, Inf), Some (Neg, Inf) => signed sy pi_3_4
  | Some (sy, Inf), Some (Pos, Inf) => signed sy pi_4
  | Some (sy, Inf), Some (_, _) => signed sy pi_2
  end.

End Libm.

Module Cxx.

Definition INT_MAX : Z := 2147483647.

(** [n++] on an [int]: the successor, and undefined behaviour ([None])
    when it does not fit. *)
Definition int_incr (n : Z) : option Z :=
  if n <? INT_MAX then Some (n + 1) else None.

(** [v[i]] on a [std::vector]: reading past the end is undefined
    behaviour ([None]). *)
Definition at_index {A} (v : list A) (i : nat) : option A := v !! i.

End Cxx.

(** ** The node *)

(** The private members of [class WaypointMaker] that change at run time.
    The subscriber and publisher handles are represented by the topics of
    [World]; [csv_file_path_] is a constant. *)
Record WaypointMaker := {
  current_pose_ : Pose.t;
  save_waypoint_ : bool;
  waypoint_id_ : Z
}.

Definition csv_file_path_ : string :=
  "/home/yamaguchi-a/catkin_ws/src/waypoint_maker/csv/waypoints.csv".

Inductive Level := INFO | ERROR.

(** What the node has written so far: the bytes of the file at
    [csv_file_path_], the messages published on each topic (oldest
    first) and the console log. *)
Record World := {
  csv : string;
  waypoint_markers : list Marker.t;
  cmd_vel : list Twist.t;
  rosout : list (Level * string)
}.

(** A message handed to a subscriber callback. *)
Inductive Msg :=
| JoyMsg (joy_msg : Joy.t)
| AmclPoseMsg (msg : PoseWithCovarianceStamped.t).

(** What the environment decides in one iteration of the loop of [run]:
    the callbacks [ros::spinOnce] dispatches, in order; whether
    [std::ofstream] manages to open the file should a save be attempted;
    whether the record buffered by [<<] then reaches the file when
    [close] flushes it (a full disk refuses it); the reading of
    [ros::Time::now]. *)
Record Tick := {
  inbox : list Msg;
  csv_opens : bool;
  csv_written : bool;
  now : Z
}.

Definition csv_append (s : string) (w : World) : World :=
  {| csv := (csv w ++ s)%string; waypoint_markers := waypoint_markers w;
     cmd_vel := cmd_vel w; rosout := rosout w |}.

Definition marker_pub_publish (m : Marker.t) (w : World) : World :=
  {| csv := csv w; waypoint_markers := waypoint_markers w ++ [m];
     cmd_vel := cmd_vel w; rosout := rosout w |}.

Definition cmd_vel_pub_publish (t : Twist.t) (w : World) : World :=
  {| csv := csv w; waypoint_markers := waypoint_markers w;
     cmd_vel := cmd_vel w ++ [t]; rosout := rosout w |}.

Definition ros_log (l : Level) (s : string) (w : World) : World :=
  {| csv := csv w; waypoint_markers := waypoint_markers w;
     cmd_vel := cmd_vel w; rosout := rosout w ++ [(l, s)] |}.

Definition ROS_INFO := ros_log INFO.
Definition ROS_ERROR := ros_log ERROR.

(** The constructor: the four assignments to [current_pose_] on top of the
    zero-initialised message, and the default member initialisers. *)
Definition WaypointMaker_init : WaypointMaker :=
  {| current_pose_ :=
       Pose.mk (Point.mk 0 0 0) (Quaternion.mk 0 0 0 1);
     save_waypoint_ := false;
     waypoint_id_ := 0 |}.

Definition World_init : World :=
  {| csv := EmptyString; waypoint_markers := []; cmd_vel := []; rosout := [] |}.

(** [joyCallback]: [None] when the message is too short for the indices
    the callback reads. *)
Definition joyCallback (joy_msg : Joy.t) (n : WaypointMaker * World)
  : option (WaypointMaker * World) :=
  let '(wm, w) := n in
  b ← Cxx.at_index (Joy.buttons joy_msg) 2;
  let wm' :=
    if b =? 1 then
      {| current_pose_ := current_pose_ wm; save_waypoint_ := true;
         waypoint_id_ := waypoint_id_ wm |}
    else wm in
  a3 ← Cxx.at_index (Joy.axes joy_msg) 3;
  a0 ← Cxx.at_index (Joy.axes joy_msg) 0;
  let twist := Twist.mk (Vector3.mk a3 0 0) (Vector3.mk 0 0 a0) in
  Some (wm', cmd_vel_pub_publish twist w).

Definition amclPoseCallback (msg : PoseWithCovarianceStamped.t)
    (n : WaypointMaker * World) : WaypointMaker * World :=
  let '(wm, w) := n in
  let p := PoseWithCovariance.pose (PoseWithCovarianceStamped.pose msg) in
  let wm' :=
    {| current_pose_ := p; save_waypoint_ := save_waypoint_ wm;
       waypoint_id_ := waypoint_id_ wm |} in
  let w1 :=
    ROS_INFO ("Position: x = " ++ Fmt.printf_f (Point.x (Pose.position p))
              ++ ", y = " ++ Fmt.printf_f (Point.y (Pose.position p)))%string w in
  let w2 :=
    ROS_INFO ("Orientation: z = " ++ Fmt.printf_f (Quaternion.z (Pose.orientation p))
              ++ ", w = " ++ Fmt.printf_f (Quaternion.w (Pose.orientation p)))%string w1 in
  (wm', w2).

(** [createArrowMarker]; [stamp] is the reading of [ros::Time::now]. *)
Definition createArrowMarker (stamp : Z) (id : Z) (pose : Pose.t) : Marker.t :=
  {| Marker.header := Header.mk stamp "map";
     Marker.ns := "waypoints";
     Marker.id := id;
     Marker.type := Marker.ARROW;
     Marker.action := Marker.ADD;
     Marker.pose := pose;
     Marker.scale := Vector3.mk 0.3 0.1 0.0;
     Marker.color := ColorRGBA.mk 1.0 0.0 0.0 1.0 |}.

Section Node.

(** The values libm's [atan2] takes on finite non-zero arguments. *)
Variable atan2_generic : float -> float -> float.

Definition atan2 : float -> float -> float := Libm.atan2 atan2_generic.

(** The text of one record: [x << "," << y << "," << yaw << "\n"]. *)
Definition csv_record (x y yaw : float) : string :=
  (Fmt.ostream_double x ++ "," ++ Fmt.ostream_double y ++ ","
     ++ Fmt.ostream_double yaw ++ Fmt.nl)%string.

(** [saveWaypointToCSV]; [opens] is the outcome of [file.is_open ()] and
    [written] tells whether the record reaches the file.  The source never
    tests the stream after [<<] and [close]: when the write is refused the
    file keeps its content and the success message is logged all the
    same.  Each arithmetic operation is rounded on its own. *)
Definition saveWaypointToCSV (opens written : bool) (pose : Pose.t) (w : World)
  : World :=
  if opens then
    let q := Pose.orientation pose in
    let yaw :=
      atan2 (2.0 * (Quaternion.w q * Quaternion.z q))
            (1.0 - 2.0 * (Quaternion.z q * Quaternion.z q)) in
    let x := Point.x (Pose.position pose) in
    let y := Point.y (Pose.position pose) in
    let w1 := if written then csv_append (csv_record x y yaw) w else w in
    ROS_INFO ("ウェイポイントを保存しました: [" ++ Fmt.printf_f x ++ ", "
              ++ Fmt.printf_f y ++ ", " ++ Fmt.printf_f yaw ++ "]")%string w1
  else
    ROS_ERROR "CSVファイルを開けませんでした" w.

Definition dispatch (m : Msg) (n : WaypointMaker * World)
  : option (WaypointMaker * World) :=
  match m with
  | JoyMsg joy_msg => joyCallback joy_msg n
  | AmclPoseMsg msg => Some (amclPoseCallback msg n)
  end.

(** [ros::spinOnce]: every pending callback, in the order of arrival. *)
Fixpoint spinOnce (pending : list Msg) (n : WaypointMaker * World)
  : option (WaypointMaker * World) :=
  match pending with
  | [] => Some n
  | m :: rest => n' ← dispatch m n; spinOnce rest n'
  end.

(** The part of the loop body of [run] guarded by [save_waypoint_]. *)
Definition save_if_requested (t : Tick) (n : WaypointMaker * World)
  : option (WaypointMaker * World) :=
  let '(wm, w) := n in
  if save_waypoint_ wm then
    let p := current_pose_ wm in
    let w1 :=
      ROS_INFO ("現在位置: x = " ++ Fmt.printf_f (Point.x (Pose.position p))
                ++ ", y = " ++ Fmt.printf_f (Point.y (Pose.position p)))%string w in
    let w2 := saveWaypointToCSV (csv_opens t) (csv_written t) p w1 in
    id' ← Cxx.int_incr (waypoint_id_ wm);
    let marker := createArrowMarker (now t) (waypoint_id_ wm) p in
    Some ({| current_pose_ := p; save_waypoint_ := false; waypoint_id_ := id' |},
          marker_pub_publish marker w2)
  else Some (wm, w).

(** One iteration of [while (ros::ok ())]: [ros::spinOnce], then the
    check of the flag ([rate.sleep] changes nothing the node sees). *)
Definition run_once (t : Tick) (n : WaypointMaker * World)
  : option (WaypointMaker * World) :=
  n' ← spinOnce (inbox t) n; save_if_requested t n'.

(** [run], for the iterations made while [ros::ok ()] held. *)
Fixpoint run (ticks : list Tick) (n : WaypointMaker * World)
  : option (WaypointMaker * World) :=
  match ticks with
  | [] => Some n
  | t :: rest => n' ← run_once t n; run rest n'
  end.

End Node.

(** ** Well-formed input and what an inbox requests *)

(** The message is long enough for [buttons[2]], [axes[3]] and [axes[0]]. *)
Definition wf_joy (joy_msg : Joy.t) : bool :=
  (3 <=? length (Joy.buttons joy_msg))%nat && (4 <=? length (Joy.axes joy_msg))%nat.

Definition wf_msg (m : Msg) : bool :=
  match m with
  | JoyMsg joy_msg => wf_joy joy_msg
  | AmclPoseMsg _ => true
  end.

Definition wf_tick (t : Tick) : bool := forallb wf_msg (inbox t).

(** The message satisfies [joy_msg->buttons[2] == 1]. *)
Definition is_press (m : Msg) : bool :=
  match m with
  | JoyMsg joy_msg =>
      match Cxx.at_index (Joy.buttons joy_msg) 2 with
      | Some b => b =? 1
      | None => false
      end
  | AmclPoseMsg _ => false
  end.

Definition is_pose (m : Msg) : bool :=
  match m with
  | JoyMsg _ => false
  | AmclPoseMsg _ => true
  end.

(** Number of line feeds in a text. *)
Fixpoint newlines (s : string) : nat :=
  match s with
  | EmptyString => O
  | String c r => ((if Ascii.eqb c "010" then 1 else 0) + newlines r)%nat
  end.

(** The yaw the source computes from a pose. *)
Definition planar_yaw (atan2_generic : float -> float -> float) (q : Quaternion.t) : float :=
  atan2 atan2_generic (2.0 * (Quaternion.w q * Quaternion.z q))
        (1.0 - 2.0 * (Quaternion.z q * Quaternion.z q)).

(** An instance of the parameter for evaluating concrete runs.  It answers
    NaN, so a run that asked libm for an angle outside the cases of Annex F
    would show it in its output. *)
Definition no_generic : float -> float -> float := fun _ _ => nan.

(** What [ros::spinOnce] cannot change, and how it changes the flag. *)
Definition spin_frame (pending : list Msg) (n n' : WaypointMaker * World) : Prop :=
  csv (snd n') = csv (snd n)
  /\ waypoint_markers (snd n') = waypoint_markers (snd n)
  /\ waypoint_id_ (fst n') = waypoint_id_ (fst n)
  /\ save_waypoint_ (fst n') = save_waypoint_ (fst n) || existsb is_press pending
  /\ (existsb is_pose pending = false -> current_pose_ (fst n') = current_pose_ (fst n)).

(** Number of messages of an inbox that request a save. *)
Definition presses (pending : list Msg) : nat := length (List.filter is_press pending).

(** The markers published between two states carry the ids the counter
    went through. *)
Definition ids_between (n n' : WaypointMaker * World) : Prop :=
  exists new,
    waypoint_markers (snd n') = waypoint_markers (snd n) ++ new
    /\ Forall (fun m => waypoint_id_ (fst n) <= Marker.id m < waypoint_id_ (fst n')) new
    /\ waypoint_id_ (fst n) <= waypoint_id_ (fst n').

(** No localisation message has been dispatched in these iterations. *)
Definition no_pose_yet (ticks : list Tick) : bool :=
  forallb (fun t => negb (existsb is_pose (inbox t))) ticks.

(** ** Concrete inputs *)

Module Sample.

(** A gamepad message with button 2 down and the sticks at rest. *)
Definition press : Msg := JoyMsg (Joy.mk [0; 0; 0; 0]%float [0; 0; 1]).

(** A gamepad message with no button down and both sticks deflected. *)
Definition drive : Joy.t := Joy.mk [0.5; 0; 0; -0.25]%float [0; 0; 0].

(** A localisation message for the pose [(1, 2)] facing along x. *)
Definition pose12 : Pose.t := Pose.mk (Point.mk 1 2 0) (Quaternion.mk 0 0 0 1).

Definition at12 : Msg :=
  AmclPoseMsg (PoseWithCovarianceStamped.mk (Header.mk 0 "map")
                 (PoseWithCovariance.mk pose12 [])).

Definition start : WaypointMaker * World := (WaypointMaker_init, World_init).

(** One press, the file opens and takes the write. *)
Definition press_tick : Tick :=
  {| inbox := [press]; csv_opens := true; csv_written := true; now := 10 |}.

(** One press, the file cannot be opened. *)
Definition press_tick_unwritable : Tick :=
  {| inbox := [press]; csv_opens := false; csv_written := false; now := 10 |}.

(** Two presses and a pose drained by one [ros::spinOnce]. *)
Definition double_press_tick : Tick :=
  {| inbox := [press; at12; press]; csv_opens := true; csv_written := true;
     now := 20 |}.

(** The state [joyCallback] leaves after [press] at [start]. *)
Definition pending : WaypointMaker * World :=
  ({| current_pose_ := current_pose_ WaypointMaker_init; save_waypoint_ := true;
      waypoint_id_ := 0 |},
   cmd_vel_pub_publish (Twist.mk (Vector3.mk 0 0 0) (Vector3.mk 0 0 0)) World_init).

End Sample.

Module SampleRun.

(** The state after one saving iteration from [Sample.start]. *)
Definition after_first : WaypointMaker * World :=
  default Sample.start (run no_generic [Sample.press_tick] Sample.start).

(** The state in the next iteration once its callbacks have run. *)
Definition second_pending : WaypointMaker * World :=
  default Sample.start (spinOnce (inbox Sample.double_press_tick) after_first).

(** The state after an iteration whose save found the file unwritable. *)
Definition after_unwritable : WaypointMaker * World :=
  default Sample.start (run no_generic [Sample.press_tick_unwritable] Sample.start).

(** The state in the iteration after it once its callbacks have run. *)
Definition unwritable_pending : WaypointMaker * World :=
  default Sample.start (spinOnce (inbox Sample.press_tick) after_unwritable).

End SampleRun.

(** ** The whole program, and summaries of what a run writes *)

(** The files and topics as the process finds them: the CSV file holds
    [file0] (empty when absent) and the node has published nothing. *)
Definition World_at_start (file0 : string) : World :=
  {| csv := file0; waypoint_markers := []; cmd_vel := []; rosout := [] |}.

(** [main]: construct the node, [run] it for the iterations [ros::ok ()]
    allows, return 0.  The result is the exit status and what was
    written. *)
Definition main (atan2_generic : float -> float -> float) (file0 : string)
    (ticks : list Tick) : option (Z * World) :=
  n ← run atan2_generic ticks (WaypointMaker_init, World_at_start file0);
  Some (0, snd n).

(** The pose held after the callbacks of an inbox: the last one a
    localisation message carried, else the one held before. *)
Fixpoint latest_pose (pending : list Msg) (p0 : Pose.t) : Pose.t :=
  match pending with
  | [] => p0
  | JoyMsg _ :: rest => latest_pose rest p0
  | AmclPoseMsg msg :: rest =>
      latest_pose rest (PoseWithCovariance.pose (PoseWithCovarianceStamped.pose msg))
  end.

(** The velocity command a gamepad message asks for. *)
Definition twist_of (joy_msg : Joy.t) : option Twist.t :=
  a3 ← Cxx.at_index (Joy.axes joy_msg) 3;
  a0 ← Cxx.at_index (Joy.axes joy_msg) 0;
  Some (Twist.mk (Vector3.mk a3 0 0) (Vector3.mk 0 0 a0)).

(** The velocity commands of the gamepad messages of an inbox, in order. *)
Fixpoint joy_twists (pending : list Msg) : list Twist.t :=
  match pending with
  | [] => []
  | JoyMsg joy_msg :: rest =>
      match twist_of joy_msg with
      | Some tw => tw :: joy_twists rest
      | None => joy_twists rest
      end
  | AmclPoseMsg _ :: rest => joy_twists rest
  end.

(** The two log entries of [amclPoseCallback] for a pose. *)
Definition pose_log (p : Pose.t) : list (Level * string) :=
  [(INFO, ("Position: x = " ++ Fmt.printf_f (Point.x (Pose.position p))
             ++ ", y = " ++ Fmt.printf_f (Point.y (Pose.position p)))%string);
   (INFO, ("Orientation: z = " ++ Fmt.printf_f (Quaternion.z (Pose.orientation p))
             ++ ", w = " ++ Fmt.printf_f (Quaternion.w (Pose.orientation p)))%string)].

Fixpoint pose_logs (pending : list Msg) : list (Level * string) :=
  match pending with
  | [] => []
  | JoyMsg _ :: rest => pose_logs rest
  | AmclPoseMsg msg :: rest =>
      pose_log (PoseWithCovariance.pose (PoseWithCovarianceStamped.pose msg))
        ++ pose_logs rest
  end.

(** The iterations in which a message asked for a save. *)
Definition saving_ticks (ticks : list Tick) : list Tick :=
  List.filter (fun t => existsb is_press (inbox t)) ticks.

(** Those of them in which the file could be opened. *)
Definition writing_ticks (ticks : list Tick) : list Tick :=
  List.filter (fun t => existsb is_press (inbox t) && csv_opens t) ticks.

(** Those of them in which the write then reached the file. *)
Definition written_ticks (ticks : list Tick) : list Tick :=
  List.filter
    (fun t => existsb is_press (inbox t) && (csv_opens t && csv_written t)) ticks.

(** Those in which a press was served and the file did not open. *)
Definition unopened_ticks (ticks : list Tick) : list Tick :=
  List.filter (fun t => existsb is_press (inbox t) && negb (csv_opens t)) ticks.

(** Every message dispatched during the iterations, in order. *)
Definition dispatched (ticks : list Tick) : list Msg := flat_map inbox ticks.

(** What [ros::spinOnce] makes of a state when every callback returns:
    the last pose received, the flag raised by any press, one velocity
    command per gamepad message and two log entries per pose. *)
Definition spin_result (pending : list Msg) (n : WaypointMaker * World)
  : WaypointMaker * World :=
  ({| current_pose_ := latest_pose pending (current_pose_ (fst n));
      save_waypoint_ := save_waypoint_ (fst n) || existsb is_press pending;
      waypoint_id_ := waypoint_id_ (fst n) |},
   {| csv := csv (snd n);
      waypoint_markers := waypoint_markers (snd n);
      cmd_vel := cmd_vel (snd n) ++ joy_twists pending;
      rosout := rosout (snd n) ++ pose_logs pending |}).

(** The log entries of one save: the position, then the outcome. *)
Definition save_log (atan2_generic : float -> float -> float) (opens : bool)
    (p : Pose.t) : list (Level * string) :=
  [(INFO, ("現在位置: x = " ++ Fmt.printf_f (Point.x (Pose.position p))
             ++ ", y = " ++ Fmt.printf_f (Point.y (Pose.position p)))%string);
   if opens then
     (INFO, ("ウェイポイントを保存しました: ["
               ++ Fmt.printf_f (Point.x (Pose.position p)) ++ ", "
               ++ Fmt.printf_f (Point.y (Pose.position p)) ++ ", "
               ++ Fmt.printf_f (planar_yaw atan2_generic (Pose.orientation p))
               ++ "]")%string)
   else (ERROR, "CSVファイルを開けませんでした"%string)].

(** The text a run appends to the file: one record per iteration that
    saw a press, opened the file and had its write reach it, of the pose
    held in that iteration. *)
Fixpoint records (atan2_generic : float -> float -> float) (ticks : list Tick)
    (p0 : Pose.t) : string :=
  match ticks with
  | [] => EmptyString
  | t :: rest =>
      let p := latest_pose (inbox t) p0 in
      ((if existsb is_press (inbox t) && (csv_opens t && csv_written t) then
          csv_record (Point.x (Pose.position p)) (Point.y (Pose.position p))
            (planar_yaw atan2_generic (Pose.orientation p))
        else EmptyString)
         ++ records atan2_generic rest p)%string
  end.

(** The markers a run publishes: one per iteration that saw a press. *)
Fixpoint arrows (ticks : list Tick) (p0 : Pose.t) (id0 : Z) : list Marker.t :=
  match ticks with
  | [] => []
  | t :: rest =>
      let p := latest_pose (inbox t) p0 in
      if existsb is_press (inbox t) then
        createArrowMarker (now t) id0 p :: arrows rest p (id0 + 1)
      else arrows rest p id0
  end.

(** The log of a run. *)
Fixpoint logs (atan2_generic : float -> float -> float) (ticks : list Tick)
    (p0 : Pose.t) : list (Level * string) :=
  match ticks with
  | [] => []
  | t :: rest =>
      let p := latest_pose (inbox t) p0 in
      pose_logs (inbox t)
        ++ (if existsb is_press (inbox t) then save_log atan2_generic (csv_opens t) p
            else [])
        ++ logs atan2_generic rest p
  end.

(** Number of error entries in a log. *)
Definition errors (log : list (Level * string)) : nat :=
  length (List.filter (fun e => match fst e with ERROR => true | INFO => false end) log).

(** What a run makes of a state whose flag is clear, when it completes. *)
Definition run_result (atan2_generic : float -> float -> float) (ticks : list Tick)
    (n : WaypointMaker * World) : WaypointMaker * World :=
  ({| current_pose_ := latest_pose (dispatched ticks) (current_pose_ (fst n));
      save_waypoint_ := false;
      waypoint_id_ := waypoint_id_ (fst n) + Z.of_nat (length (saving_ticks ticks)) |},
   {| csv := (csv (snd n) ++ records atan2_generic ticks (current_pose_ (fst n)))%string;
      waypoint_markers :=
        waypoint_markers (snd n)
          ++ arrows ticks (current_pose_ (fst n)) (waypoint_id_ (fst n));
      cmd_vel := cmd_vel (snd n) ++ joy_twists (dispatched ticks);
      rosout := rosout (snd n) ++ logs atan2_generic ticks (current_pose_ (fst n)) |}).

(** The message is a gamepad message. *)
Definition is_joy (m : Msg) : bool := negb (is_pose m).

(** Number of occurrences of a character in a text. *)
Fixpoint count_char (c : ascii) (s : string) : nat :=
  match s with
  | EmptyString => O
  | String a r => ((if Ascii.eqb a c then 1 else 0) + count_char c r)%nat
  end.

(** The characters a rendered double is made of. *)
Definition is_numeric (a : ascii) : bool :=
  existsb (Ascii.eqb a) (list_ascii_of_string "0123456789.e+-infa").

Fixpoint all_numeric (s : string) : bool :=
  match s with
  | EmptyString => true
  | String a r => is_numeric a && all_numeric r
  end.

Module Sample2.

(** A localisation message for the pose [(3, 4)] facing along x, its
    quaternion written with a negative [w]. *)
Definition pose34 : Pose.t := Pose.mk (Point.mk 3 4 0) (Quaternion.mk 0 0 0 (-1)).

Definition at34 : Msg :=
  AmclPoseMsg (PoseWithCovarianceStamped.mk (Header.mk 0 "map")
                 (PoseWithCovariance.mk pose34 [])).

(** A gamepad message too short for [axes[3]]. *)
Definition short : Joy.t := Joy.mk [0.5; 0; 0]%float [0; 0; 1].

(** A press, then two poses, then a stick movement, in one inbox. *)
Definition busy_tick : Tick :=
  {| inbox := [Sample.press; Sample.at12; at34; JoyMsg Sample.drive];
     csv_opens := true; csv_written := true; now := 30 |}.

(** Nothing pending. *)
Definition idle_tick : Tick :=
  {| inbox := []; csv_opens := true; csv_written := true; now := 40 |}.

(** A session: a save, a save whose file does not open, an idle
    iteration, a busy one. *)
Definition session : list Tick :=
  [Sample.press_tick; Sample.press_tick_unwritable; idle_tick; busy_tick].

(** The file as an earlier session left it. *)
Definition old_file : string := ("9,9,0" ++ Fmt.nl)%string.

(** What [main] has written at the end of [session]. *)
Definition session_world : World :=
  default World_init (snd <$> main no_generic old_file session).

(** A press served on a file that opens and then refuses the write. *)
Definition refused_tick : Tick :=
  {| inbox := [Sample.press]; csv_opens := true; csv_written := false; now := 50 |}.

(** [session] followed by such an iteration. *)
Definition long_session : list Tick := session ++ [refused_tick].

Definition long_session_world : World :=
  default World_init (snd <$> main no_generic old_file long_session).


End Sample2.

(** * Lemmas *)

(** ** Text lemmas: a rendered number holds no line feed *)

Module FmtFacts.
Import Fmt.
Local Open Scope string_scope.
Local Open Scope Z_scope.

Lemma newlines_app (s t : string) : newlines (s ++ t) = (newlines s + newlines t)%nat.
Proof. induction s as [|c s IH]; simpl; [reflexivity|]. rewrite IH. lia. Qed.

Lemma newlines_digit (d : Z) :
  0 <= d < 10 -> newlines (String (digit d) EmptyString) = O.
Proof.
  intros H. assert (d = 0 \/ d = 1 \/ d = 2 \/ d = 3 \/ d = 4 \/ d = 5 \/ d = 6
                    \/ d = 7 \/ d = 8 \/ d = 9) as Hd by lia.
  repeat (destruct Hd as [-> | Hd]; [reflexivity|]). subst d. reflexivity.
Qed.

Lemma newlines_fixed_digits (w : nat) (n : Z) : newlines (fixed_digits w n) = O.
Proof.
  revert n. induction w as [|w IH]; intros n; simpl; [reflexivity|].
  rewrite newlines_app, IH, newlines_digit; [reflexivity|].
  apply Z.mod_pos_bound. lia.
Qed.

Lemma newlines_substring (s : string) :
  newlines s = O -> forall i k, newlines (substring i k s) = O.
Proof.
  induction s as [|c s IH]; intros H i k.
  - destruct i, k; reflexivity.
  - simpl in H. destruct (Ascii.eqb c "010") eqn:E; [discriminate|]. simpl in H.
    destruct i; destruct k; simpl; try reflexivity.
    + rewrite E. simpl. apply IH, H.
    + apply IH, H.
    + apply IH, H.
Qed.

Lemma newlines_strip_zeros (s : string) : newlines s = O -> newlines (strip_zeros s) = O.
Proof.
  induction s as [|c s IH]; intros H; simpl; [reflexivity|].
  simpl in H. destruct (Ascii.eqb c "010") eqn:E; [discriminate|]. simpl in H.
  specialize (IH H). destruct (strip_zeros s) eqn:Es.
  - destruct (Ascii.eqb c "0"); simpl; [reflexivity|]. rewrite E. reflexivity.
  - simpl. rewrite E. simpl in IH. exact IH.
Qed.

Lemma newlines_point_frac (s : string) : newlines s = O -> newlines (point_frac s) = O.
Proof.
  intros H. unfold point_frac. pose proof (newlines_strip_zeros s H) as Hs.
  destruct (strip_zeros s); [reflexivity|]. simpl in *. exact Hs.
Qed.

Lemma newlines_zeros (k : nat) : newlines (zeros k) = O.
Proof. induction k as [|k IH]; simpl; [reflexivity|exact IH]. Qed.

Lemma newlines_sign_prefix (neg : bool) : newlines (sign_prefix neg) = O.
Proof. destruct neg; reflexivity. Qed.

Lemma newlines_fix_style (sig x : Z) : newlines (fix_style sig x) = O.
Proof.
  unfold fix_style. destruct (0 <=? x).
  - rewrite newlines_app, newlines_substring, newlines_point_frac;
      auto using newlines_substring, newlines_fixed_digits.
  - rewrite newlines_app, newlines_point_frac; [reflexivity|].
    rewrite newlines_app, newlines_zeros, newlines_fixed_digits. reflexivity.
Qed.

Lemma newlines_exp_style (sig x : Z) : newlines (exp_style sig x) = O.
Proof.
  unfold exp_style. rewrite !newlines_app.
  rewrite newlines_substring by apply newlines_fixed_digits.
  rewrite newlines_point_frac
    by (apply newlines_substring, newlines_fixed_digits).
  rewrite newlines_fixed_digits. destruct (x <? 0); reflexivity.
Qed.

Lemma newlines_ostream_double (v : float) : newlines (ostream_double v) = O.
Proof.
  unfold ostream_double, printf_g. destruct (Prim2SF v) as [neg|neg| |neg m e].
  - rewrite newlines_app, newlines_sign_prefix. reflexivity.
  - rewrite newlines_app, newlines_sign_prefix. reflexivity.
  - reflexivity.
  - destruct (significand6 (fraction m e)) as [sig x].
    rewrite newlines_app, newlines_sign_prefix.
    destruct ((-4 <=? x) && (x <? 6));
      [apply newlines_fix_style | apply newlines_exp_style].
Qed.

End FmtFacts.

(** A record written by [saveWaypointToCSV] is one line: its only line
    feed is the one that ends it. *)
Lemma csv_record_one_line (x y yaw : float) :
  newlines (csv_record x y yaw) = 1%nat.
Proof.
  unfold csv_record. rewrite !FmtFacts.newlines_app, !FmtFacts.newlines_ostream_double.
  reflexivity.
Qed.

(** ** The callbacks leave the file, the markers and the counter alone *)

Section Callbacks.

Variable atan2_generic : float -> float -> float.

Lemma at_index_wf {A} (v : list A) (i : nat) :
  (i < length v)%nat -> exists a, Cxx.at_index v i = Some a.
Proof. intros H. apply lookup_lt_is_Some_2 in H. destruct H as [a Ha]. eauto. Qed.

Lemma joyCallback_defined (joy_msg : Joy.t) (n : WaypointMaker * World) :
  wf_joy joy_msg = true -> exists n', joyCallback joy_msg n = Some n'.
Proof.
  unfold wf_joy. intros H. apply andb_true_iff in H as [Hb Ha].
  apply Nat.leb_le in Hb, Ha. destruct n as [wm w]. unfold joyCallback.
  destruct (at_index_wf (Joy.buttons joy_msg) 2) as [b ->]; [lia|].
  destruct (at_index_wf (Joy.axes joy_msg) 3) as [a3 ->]; [lia|].
  destruct (at_index_wf (Joy.axes joy_msg) 0) as [a0 ->]; [lia|].
  simpl. eauto.
Qed.

Lemma joyCallback_frame (joy_msg : Joy.t) (n n' : WaypointMaker * World) :
  joyCallback joy_msg n = Some n' -> spin_frame [JoyMsg joy_msg] n n'.
Proof.
  destruct n as [wm w]. unfold joyCallback, spin_frame. simpl.
  destruct (Cxx.at_index (Joy.buttons joy_msg) 2) as [b|]; [|discriminate].
  destruct (Cxx.at_index (Joy.axes joy_msg) 3) as [a3|]; [|discriminate].
  destruct (Cxx.at_index (Joy.axes joy_msg) 0) as [a0|]; [|discriminate].
  simpl. intros [= <-]. simpl.
  destruct (b =? 1); simpl; rewrite ?orb_true_r, ?orb_false_r; auto.
Qed.

Lemma amclPoseCallback_frame (msg : PoseWithCovarianceStamped.t)
    (n : WaypointMaker * World) :
  spin_frame [AmclPoseMsg msg] n (amclPoseCallback msg n).
Proof.
  destruct n as [wm w]. unfold spin_frame. simpl.
  rewrite orb_false_r. repeat split. discriminate.
Qed.

Lemma spin_frame_nil (n : WaypointMaker * World) : spin_frame [] n n.
Proof. unfold spin_frame. simpl. rewrite orb_false_r. auto. Qed.

Lemma spin_frame_cons (m : Msg) (rest : list Msg) (n n1 n2 : WaypointMaker * World) :
  spin_frame [m] n n1 -> spin_frame rest n1 n2 -> spin_frame (m :: rest) n n2.
Proof.
  unfold spin_frame. simpl. rewrite orb_false_r.
  intros (Hc1 & Hm1 & Hi1 & Hf1 & Hp1) (Hc2 & Hm2 & Hi2 & Hf2 & Hp2).
  rewrite Hc2, Hm2, Hi2, Hf2, Hc1, Hm1, Hi1, Hf1, orb_assoc.
  repeat split. intros H. apply orb_false_iff in H as [Hm Hr].
  rewrite Hp2, Hp1 by (rewrite ?Hm; auto). reflexivity.
Qed.

Lemma spinOnce_frame (pending : list Msg) (n n' : WaypointMaker * World) :
  spinOnce pending n = Some n' -> spin_frame pending n n'.
Proof.
  revert n. induction pending as [|m rest IH]; intros n; simpl.
  - intros [= <-]. apply spin_frame_nil.
  - destruct (dispatch m n) as [n1|] eqn:Hd; [|discriminate]. simpl. intros Hr.
    apply spin_frame_cons with n1; [|apply IH, Hr].
    destruct m as [joy_msg|msg]; simpl in Hd.
    + apply joyCallback_frame, Hd.
    + injection Hd as <-. apply amclPoseCallback_frame.
Qed.

Lemma spinOnce_defined (pending : list Msg) (n : WaypointMaker * World) :
  forallb wf_msg pending = true -> exists n', spinOnce pending n = Some n'.
Proof.
  revert n. induction pending as [|m rest IH]; intros n; simpl; [eauto|].
  intros H. apply andb_true_iff in H as [Hm Hr].
  destruct m as [joy_msg|msg]; simpl.
  - destruct (joyCallback_defined joy_msg n Hm) as [n1 ->]. simpl. apply IH, Hr.
  - apply IH, Hr.
Qed.

(** The guarded block of [run], once the flag is known to be set. *)
Lemma save_if_requested_set (t : Tick) (wm : WaypointMaker) (w : World) :
  save_waypoint_ wm = true ->
  waypoint_id_ wm < Cxx.INT_MAX ->
  save_if_requested atan2_generic t (wm, w) =
    Some ({| current_pose_ := current_pose_ wm; save_waypoint_ := false;
             waypoint_id_ := waypoint_id_ wm + 1 |},
          marker_pub_publish
            (createArrowMarker (now t) (waypoint_id_ wm) (current_pose_ wm))
            (saveWaypointToCSV atan2_generic (csv_opens t) (csv_written t) (current_pose_ wm)
               (ROS_INFO
                  ("現在位置: x = "
                     ++ Fmt.printf_f (Point.x (Pose.position (current_pose_ wm)))
                     ++ ", y = "
                     ++ Fmt.printf_f (Point.y (Pose.position (current_pose_ wm))))%string
                  w))).
Proof.
  intros Hf Hid. unfold save_if_requested. rewrite Hf. unfold Cxx.int_incr.
  apply Z.ltb_lt in Hid. rewrite Hid. reflexivity.
Qed.

Lemma save_if_requested_clear (t : Tick) (wm : WaypointMaker) (w : World) :
  save_waypoint_ wm = false ->
  save_if_requested atan2_generic t (wm, w) = Some (wm, w).
Proof. intros Hf. unfold save_if_requested. rewrite Hf. reflexivity. Qed.

Lemma csv_saveWaypointToCSV (opens written : bool) (pose : Pose.t) (w : World) :
  csv (saveWaypointToCSV atan2_generic opens written pose w) =
    if opens && written then
      (csv w ++ csv_record (Point.x (Pose.position pose)) (Point.y (Pose.position pose))
                  (planar_yaw atan2_generic (Pose.orientation pose)))%string
    else csv w.
Proof. destruct opens, written; reflexivity. Qed.

Lemma markers_saveWaypointToCSV (opens written : bool) (pose : Pose.t) (w : World) :
  waypoint_markers (saveWaypointToCSV atan2_generic opens written pose w)
    = waypoint_markers w.
Proof. destruct opens, written; reflexivity. Qed.

End Callbacks.

(** ** What one iteration does, for any inbox *)

Lemma presses_exists (pending : list Msg) :
  (1 <= presses pending)%nat -> existsb is_press pending = true.
Proof.
  unfold presses. induction pending as [|m rest IH]; simpl; [lia|].
  destruct (is_press m); simpl; auto.
Qed.

(** With well-formed messages and room in the counter an iteration always
    completes, and it saves exactly when the flag is set after the
    callbacks have run. *)
Lemma run_once_outcome (g : float -> float -> float) (t : Tick)
    (n : WaypointMaker * World) :
  wf_tick t = true ->
  waypoint_id_ (fst n) < Cxx.INT_MAX ->
  exists wm1 w1,
    spinOnce (inbox t) n = Some (wm1, w1)
    /\ spin_frame (inbox t) n (wm1, w1)
    /\ run_once g t n =
         if save_waypoint_ wm1 then
           Some ({| current_pose_ := current_pose_ wm1; save_waypoint_ := false;
                    waypoint_id_ := waypoint_id_ (fst n) + 1 |},
                 marker_pub_publish
                   (createArrowMarker (now t) (waypoint_id_ (fst n)) (current_pose_ wm1))
                   (saveWaypointToCSV g (csv_opens t) (csv_written t) (current_pose_ wm1)
                      (ROS_INFO
                         ("現在位置: x = "
                            ++ Fmt.printf_f (Point.x (Pose.position (current_pose_ wm1)))
                            ++ ", y = "
                            ++ Fmt.printf_f (Point.y (Pose.position (current_pose_ wm1))))%string
                         w1)))
         else Some (wm1, w1).
Proof.
  intros Hwf Hid. destruct (spinOnce_defined (inbox t) n Hwf) as [[wm1 w1] Hspin].
  pose proof (spinOnce_frame _ _ _ Hspin) as Hfr.
  exists wm1, w1. split; [exact Hspin|]. split; [exact Hfr|].
  destruct Hfr as (_ & _ & Hi & _). simpl in Hi.
  unfold run_once. rewrite Hspin. cbn [mbind option_bind].
  destruct (save_waypoint_ wm1) eqn:Hf.
  - rewrite <- Hi. apply save_if_requested_set; [exact Hf | rewrite Hi; exact Hid].
  - apply save_if_requested_clear, Hf.
Qed.

(** ** Runs of several iterations *)

Section Runs.

Variable g : float -> float -> float.

Lemma run_app (a b : list Tick) (n : WaypointMaker * World) :
  run g (a ++ b) n = run g a n ≫= run g b.
Proof.
  revert n. induction a as [|t a IH]; intros n; simpl; [reflexivity|].
  destruct (run_once g t n) as [n1|]; simpl; [apply IH | reflexivity].
Qed.

Lemma ids_between_refl (n : WaypointMaker * World) : ids_between n n.
Proof. exists []. rewrite app_nil_r. repeat split; [constructor | lia]. Qed.

Lemma ids_between_trans (n1 n2 n3 : WaypointMaker * World) :
  ids_between n1 n2 -> ids_between n2 n3 -> ids_between n1 n3.
Proof.
  intros (a & Ha & Fa & La) (b & Hb & Fb & Lb). exists (a ++ b).
  rewrite Hb, Ha, app_assoc. repeat split; [|lia].
  apply Forall_app. split;
    [eapply Forall_impl; [exact Fa|] | eapply Forall_impl; [exact Fb|]];
    intros m; simpl; lia.
Qed.

Lemma run_once_ids (t : Tick) (n n' : WaypointMaker * World) :
  run_once g t n = Some n' -> ids_between n n'.
Proof.
  unfold run_once. destruct (spinOnce (inbox t) n) as [[wm1 w1]|] eqn:Hspin;
    [|discriminate].
  destruct (spinOnce_frame _ _ _ Hspin) as (_ & Hm & Hi & _). simpl in Hm, Hi.
  cbn [mbind option_bind]. unfold save_if_requested, Cxx.int_incr.
  destruct (save_waypoint_ wm1).
  - destruct (waypoint_id_ wm1 <? Cxx.INT_MAX); [|discriminate].
    simpl. intros [= <-].
    exists [createArrowMarker (now t) (waypoint_id_ wm1) (current_pose_ wm1)].
    simpl. rewrite markers_saveWaypointToCSV. simpl. rewrite Hm, Hi.
    repeat split; [|lia]. constructor; [simpl; lia | constructor].
  - intros [= <-]. exists []. simpl. rewrite app_nil_r, Hm, Hi.
    repeat split; [constructor | lia].
Qed.

Lemma run_ids (ticks : list Tick) (n n' : WaypointMaker * World) :
  run g ticks n = Some n' -> ids_between n n'.
Proof.
  revert n. induction ticks as [|t ticks IH]; intros n; simpl.
  - intros [= <-]. apply ids_between_refl.
  - destruct (run_once g t n) as [n1|] eqn:H1; [|discriminate]. simpl. intros Hr.
    apply ids_between_trans with n1; [apply run_once_ids with t, H1 | apply IH, Hr].
Qed.

Lemma run_once_clears (t : Tick) (n n' : WaypointMaker * World) :
  run_once g t n = Some n' -> save_waypoint_ (fst n') = false.
Proof.
  unfold run_once.
  destruct (spinOnce (inbox t) n) as [[wm1 w1]|]; [|discriminate].
  cbn [mbind option_bind]. unfold save_if_requested.
  destruct (save_waypoint_ wm1) eqn:Hf; [|intros [= <-]; exact Hf].
  destruct (Cxx.int_incr (waypoint_id_ wm1)); [|discriminate].
  simpl. intros [= <-]. reflexivity.
Qed.

(** The flag is clear whenever the loop is about to call [ros::spinOnce]. *)
Lemma run_clears (ticks : list Tick) (n n' : WaypointMaker * World) :
  save_waypoint_ (fst n) = false ->
  run g ticks n = Some n' -> save_waypoint_ (fst n') = false.
Proof.
  revert n. induction ticks as [|t ticks IH]; intros n Hn; simpl.
  - intros [= <-]. exact Hn.
  - destruct (run_once g t n) as [n1|] eqn:H1; [|discriminate]. simpl.
    apply IH. apply run_once_clears with t n, H1.
Qed.

Lemma run_once_pose (t : Tick) (n n' : WaypointMaker * World) :
  existsb is_pose (inbox t) = false ->
  run_once g t n = Some n' -> current_pose_ (fst n') = current_pose_ (fst n).
Proof.
  intros Hnp. unfold run_once.
  destruct (spinOnce (inbox t) n) as [[wm1 w1]|] eqn:Hspin; [|discriminate].
  destruct (spinOnce_frame _ _ _ Hspin) as (_ & _ & _ & _ & Hp).
  specialize (Hp Hnp). simpl in Hp.
  cbn [mbind option_bind]. unfold save_if_requested.
  destruct (save_waypoint_ wm1); [|intros [= <-]; exact Hp].
  destruct (Cxx.int_incr (waypoint_id_ wm1)); [|discriminate].
  simpl. intros [= <-]. exact Hp.
Qed.

Lemma run_pose (ticks : list Tick) (n n' : WaypointMaker * World) :
  no_pose_yet ticks = true ->
  run g ticks n = Some n' -> current_pose_ (fst n') = current_pose_ (fst n).
Proof.
  revert n. induction ticks as [|t ticks IH]; intros n; simpl.
  - intros _ [= <-]. reflexivity.
  - intros H. apply andb_true_iff in H as [Ht Hr]. apply negb_true_iff in Ht.
    destruct (run_once g t n) as [n1|] eqn:H1; [|discriminate]. simpl. intros Hrun.
    rewrite (IH n1 Hr Hrun). apply run_once_pose with t; assumption.
Qed.

End Runs.

(** * The claims *)

(** ** C1: one record and one id per save *)




(** ** C2: the yaw is the planar reduction *)

(** C2: whatever the pose, the third field [saveWaypointToCSV] writes is
    [atan2 (2 (w z), 1 - 2 (z z))] of the orientation's [z] and [w], with the
    products grouped as in the source; the orientation's [x] and [y] (and
    the position's [z]) have no influence on what is written, as in no
    conversion of a general rotation. *)
Theorem C2_yaw_is_planar_formula
    (atan2_generic : float -> float -> float)
    (x y z qx qy qz qw : float) (w : World) :
  csv (saveWaypointToCSV atan2_generic true true
         (Pose.mk (Point.mk x y z) (Quaternion.mk qx qy qz qw)) w)
    = (csv w ++ Fmt.ostream_double x ++ "," ++ Fmt.ostream_double y ++ ","
         ++ Fmt.ostream_double
              (atan2 atan2_generic (2.0 * (qw * qz)) (1.0 - 2.0 * (qz * qz)))
         ++ Fmt.nl)%string
  /\ forall z' qx' qy' : float,
      saveWaypointToCSV atan2_generic true true
        (Pose.mk (Point.mk x y z') (Quaternion.mk qx' qy' qz qw)) w
      = saveWaypointToCSV atan2_generic true true
          (Pose.mk (Point.mk x y z) (Quaternion.mk qx qy qz qw)) w.
Proof. split; [reflexivity | intros; reflexivity]. Qed.

(** ** C3: the axes go out unchanged *)

(** C3: for a message that has the entries the callback reads,
    [joyCallback] publishes exactly one velocity command, with
    [linear.x = axes[3]] and [angular.z = axes[0]] unchanged and every other
    component zero, whatever button 2 and the flag are; nothing else is
    written. *)
Theorem C3_joy_axes_passthrough
    (joy_msg : Joy.t) (wm : WaypointMaker) (w : World) (b : Z) (a3 a0 : float) :
  Cxx.at_index (Joy.buttons joy_msg) 2 = Some b ->
  Cxx.at_index (Joy.axes joy_msg) 3 = Some a3 ->
  Cxx.at_index (Joy.axes joy_msg) 0 = Some a0 ->
  exists wm' w',
    joyCallback joy_msg (wm, w) = Some (wm', w')
    /\ cmd_vel w' = cmd_vel w ++ [Twist.mk (Vector3.mk a3 0 0) (Vector3.mk 0 0 a0)]
    /\ csv w' = csv w
    /\ waypoint_markers w' = waypoint_markers w
    /\ rosout w' = rosout w.
Proof.
  intros Hb H3 H0. unfold joyCallback. rewrite Hb, H3, H0. simpl.
  eexists _, _. split; [reflexivity|]. simpl. auto.
Qed.

Lemma C3_joy_axes_passthrough_witness :
  Cxx.at_index (Joy.buttons Sample.drive) 2 = Some 0
  /\ exists wm' w',
      joyCallback Sample.drive Sample.pending = Some (wm', w')
      /\ cmd_vel w' = cmd_vel (snd Sample.pending)
                        ++ [Twist.mk (Vector3.mk (-0.25) 0 0) (Vector3.mk 0 0 0.5)]
      /\ csv w' = csv (snd Sample.pending)
      /\ waypoint_markers w' = waypoint_markers (snd Sample.pending)
      /\ rosout w' = rosout (snd Sample.pending).
Proof.
  split; [reflexivity|].
  apply (C3_joy_axes_passthrough Sample.drive (fst Sample.pending) (snd Sample.pending)
           0 (-0.25) 0.5); reflexivity.
Defined.

(** ** C4 and C5: a file that does not open *)

(** C4: when the flag is set and the file does not open, the cycle still
    completes: the file is unchanged, the log gains the position line and
    one error entry, the flag is cleared, and [run] goes on with the
    remaining iterations from that state. *)
Theorem C4_open_failure_logged_and_dropped
    (atan2_generic : float -> float -> float) (t : Tick) (rest : list Tick)
    (n : WaypointMaker * World) (wm1 : WaypointMaker) (w1 : World) :
  spinOnce (inbox t) n = Some (wm1, w1) ->
  save_waypoint_ wm1 = true ->
  csv_opens t = false ->
  waypoint_id_ wm1 < Cxx.INT_MAX ->
  exists wm2 w2,
    run_once atan2_generic t n = Some (wm2, w2)
    /\ csv w2 = csv (snd n)
    /\ rosout w2 =
         rosout w1
           ++ [(INFO, ("現在位置: x = "
                         ++ Fmt.printf_f (Point.x (Pose.position (current_pose_ wm1)))
                         ++ ", y = "
                         ++ Fmt.printf_f (Point.y (Pose.position (current_pose_ wm1))))%string);
               (ERROR, "CSVファイルを開けませんでした"%string)]
    /\ save_waypoint_ wm2 = false
    /\ run atan2_generic (t :: rest) n = run atan2_generic rest (wm2, w2).
Proof.
  intros Hspin Hflag Hopen Hid.
  destruct (spinOnce_frame _ _ _ Hspin) as (Hcsv & _). simpl in Hcsv.
  assert (Hrun : run_once atan2_generic t n = _)
    by (unfold run_once; rewrite Hspin; simpl;
        apply save_if_requested_set; assumption).
  eexists _, _. split; [exact Hrun|]. repeat split.
  - simpl. rewrite csv_saveWaypointToCSV, Hopen. exact Hcsv.
  - rewrite Hopen. simpl. rewrite <- app_assoc. reflexivity.
  - simpl. rewrite Hrun. reflexivity.
Qed.

Lemma C4_open_failure_logged_and_dropped_witness :
  spinOnce (inbox Sample.press_tick_unwritable) Sample.start = Some Sample.pending
  /\ exists wm2 w2,
      run_once no_generic Sample.press_tick_unwritable Sample.start = Some (wm2, w2)
      /\ csv w2 = EmptyString
      /\ rosout w2 =
           [] ++ [(INFO, "現在位置: x = 0.000000, y = 0.000000"%string);
                  (ERROR, "CSVファイルを開けませんでした"%string)]
      /\ save_waypoint_ wm2 = false
      /\ run no_generic [Sample.press_tick_unwritable; Sample.press_tick] Sample.start
         = run no_generic [Sample.press_tick] (wm2, w2).
Proof.
  split; [reflexivity|].
  apply (C4_open_failure_logged_and_dropped no_generic Sample.press_tick_unwritable
           [Sample.press_tick] Sample.start (fst Sample.pending) (snd Sample.pending));
    reflexivity.
Defined.

(** C5: in a cycle whose flag is set, the marker is published and
    [waypoint_id_] is incremented whether or not the file opened, and
    whether or not the write reached it: every outcome of the open and of
    the write gives the same marker and the same counter. *)
Theorem C5_marker_and_id_whatever_the_open
    (atan2_generic : float -> float -> float) (pending : list Msg)
    (opens written : bool) (stamp : Z) (n : WaypointMaker * World) (wm1 : WaypointMaker) (w1 : World) :
  spinOnce pending n = Some (wm1, w1) ->
  save_waypoint_ wm1 = true ->
  waypoint_id_ wm1 < Cxx.INT_MAX ->
  exists wm2 w2,
    run_once atan2_generic
      {| inbox := pending; csv_opens := opens; csv_written := written; now := stamp |} n
      = Some (wm2, w2)
    /\ waypoint_markers w2 =
         waypoint_markers (snd n)
           ++ [createArrowMarker stamp (waypoint_id_ (fst n)) (current_pose_ wm1)]
    /\ waypoint_id_ wm2 = waypoint_id_ (fst n) + 1.
Proof.
  intros Hspin Hflag Hid.
  destruct (spinOnce_frame _ _ _ Hspin) as (_ & Hm & Hi & _). simpl in Hm, Hi.
  eexists _, _. split; [|split].
  - unfold run_once. simpl inbox. rewrite Hspin. cbn [mbind option_bind].
    apply save_if_requested_set; assumption.
  - simpl. rewrite markers_saveWaypointToCSV. simpl. rewrite Hm, Hi. reflexivity.
  - simpl. rewrite Hi. reflexivity.
Qed.

Lemma C5_marker_and_id_whatever_the_open_witness :
  spinOnce [Sample.press] Sample.start = Some Sample.pending
  /\ exists wm2 w2,
      run_once no_generic
        {| inbox := [Sample.press]; csv_opens := false; csv_written := false; now := 10 |}
        Sample.start = Some (wm2, w2)
      /\ waypoint_markers w2 =
           [] ++ [createArrowMarker 10 0 (current_pose_ WaypointMaker_init)]
      /\ waypoint_id_ wm2 = 0 + 1.
Proof.
  split; [reflexivity|].
  apply (C5_marker_and_id_whatever_the_open no_generic [Sample.press] false false 10
           Sample.start (fst Sample.pending) (snd Sample.pending)); reflexivity.
Defined.

(** ** C6: several presses in one cycle *)

(** C6: when two or more messages with button 2 down are dispatched by one
    [ros::spinOnce], the iteration performs one save, not one per
    message: one id is consumed, one marker is published and the file
    grows by at most one record.  A press that finds the flag set leaves
    the members of the node as they were. *)
Theorem C6_one_save_for_many_presses
    (atan2_generic : float -> float -> float) (t : Tick) (n : WaypointMaker * World) :
  wf_tick t = true ->
  waypoint_id_ (fst n) < Cxx.INT_MAX ->
  (2 <= presses (inbox t))%nat ->
  (exists wm1 w1 wm2 w2,
      spinOnce (inbox t) n = Some (wm1, w1)
      /\ run_once atan2_generic t n = Some (wm2, w2)
      /\ waypoint_id_ wm2 = waypoint_id_ (fst n) + 1
      /\ waypoint_markers w2 =
           waypoint_markers (snd n)
             ++ [createArrowMarker (now t) (waypoint_id_ (fst n)) (current_pose_ wm1)]
      /\ csv w2 =
           (if csv_opens t && csv_written t then
              csv (snd n)
                ++ csv_record (Point.x (Pose.position (current_pose_ wm1)))
                     (Point.y (Pose.position (current_pose_ wm1)))
                     (planar_yaw atan2_generic (Pose.orientation (current_pose_ wm1)))
            else csv (snd n))%string
      /\ (newlines (csv w2) <= newlines (csv (snd n)) + 1)%nat
      /\ save_waypoint_ wm2 = false)
  /\ forall (joy_msg : Joy.t) (wm wm' : WaypointMaker) (w w' : World),
      save_waypoint_ wm = true ->
      joyCallback joy_msg (wm, w) = Some (wm', w') -> wm' = wm.
Proof.
  intros Hwf Hid Hp. split.
  - destruct (run_once_outcome atan2_generic t n Hwf Hid)
      as (wm1 & w1 & Hspin & (Hcsv & Hm & _ & Hf & _) & Hrun).
    simpl in Hcsv, Hm, Hf.
    rewrite presses_exists, orb_true_r in Hf by lia. rewrite Hf in Hrun.
    eexists wm1, w1, _, _. split; [exact Hspin|]. split; [exact Hrun|].
    simpl. rewrite markers_saveWaypointToCSV, csv_saveWaypointToCSV. simpl.
    rewrite Hm, Hcsv. repeat split.
    destruct (csv_opens t && csv_written t); [|lia].
    rewrite FmtFacts.newlines_app, csv_record_one_line. lia.
  - intros joy_msg wm wm' w w' Hset. unfold joyCallback.
    destruct (Cxx.at_index (Joy.buttons joy_msg) 2) as [b|]; [|discriminate].
    destruct (Cxx.at_index (Joy.axes joy_msg) 3) as [a3|]; [|discriminate].
    destruct (Cxx.at_index (Joy.axes joy_msg) 0) as [a0|]; [|discriminate].
    simpl. intros [= <- _]. destruct (b =? 1); [|reflexivity].
    destruct wm as [p f i]. simpl in Hset. subst f. reflexivity.
Qed.

Lemma C6_one_save_for_many_presses_witness :
  (2 <= presses (inbox Sample.double_press_tick))%nat
  /\ exists wm1 w1 wm2 w2,
      spinOnce (inbox Sample.double_press_tick) Sample.start = Some (wm1, w1)
      /\ run_once no_generic Sample.double_press_tick Sample.start = Some (wm2, w2)
      /\ waypoint_id_ wm2 = 0 + 1
      /\ waypoint_markers w2 = [] ++ [createArrowMarker 20 0 (current_pose_ wm1)]
      /\ csv w2 =
           ("" ++ csv_record (Point.x (Pose.position (current_pose_ wm1)))
                    (Point.y (Pose.position (current_pose_ wm1)))
                    (planar_yaw no_generic (Pose.orientation (current_pose_ wm1))))%string
      /\ (newlines (csv w2) <= 0 + 1)%nat
      /\ save_waypoint_ wm2 = false.
Proof.
  split; [vm_compute; lia|].
  apply (proj1 (C6_one_save_for_many_presses no_generic Sample.double_press_tick
                  Sample.start eq_refl eq_refl (le_n 2))).
Defined.

Example double_press_saves_once :
  (csv ∘ snd) <$> run_once no_generic Sample.double_press_tick Sample.start
    = Some ("1,2,0" ++ Fmt.nl)%string.
Proof. vm_compute. reflexivity. Qed.

(** ** C7: the flag follows the level of the button, not its edge *)

(** C7, as stated, fails: with button 2 reported down in two successive
    cycles and never released in between, each cycle saves. *)
Lemma C7_held_button_saves_each_cycle :
  (csv ∘ snd) <$> run no_generic [Sample.press_tick; Sample.press_tick] Sample.start
    = Some ("0,0,0" ++ Fmt.nl ++ "0,0,0" ++ Fmt.nl)%string
  /\ (waypoint_id_ ∘ fst)
       <$> run no_generic [Sample.press_tick; Sample.press_tick] Sample.start
     = Some 2.
Proof. split; vm_compute; reflexivity. Qed.

(** C7 (amended): in any iteration of a run of the node, a save is
    performed exactly when [ros::spinOnce] dispatched, in that same
    iteration, at least one message with [buttons[2] == 1]; whether the
    button was already down in earlier iterations plays no part, and the
    iteration ends with the flag clear.  The record of a save is in the
    file when the file opened and the write reached it, and the file is
    unchanged otherwise. *)
Theorem C7_save_iff_press_in_cycle
    (atan2_generic : float -> float -> float) (ticks : list Tick) (t : Tick)
    (w0 : World) (n : WaypointMaker * World) :
  run atan2_generic ticks (WaypointMaker_init, w0) = Some n ->
  wf_tick t = true ->
  waypoint_id_ (fst n) < Cxx.INT_MAX ->
  exists wm1 w1 wm2 w2,
    spinOnce (inbox t) n = Some (wm1, w1)
    /\ run_once atan2_generic t n = Some (wm2, w2)
    /\ save_waypoint_ wm2 = false
    /\ if existsb is_press (inbox t) then
         waypoint_id_ wm2 = waypoint_id_ (fst n) + 1
         /\ waypoint_markers w2 =
              waypoint_markers (snd n)
                ++ [createArrowMarker (now t) (waypoint_id_ (fst n)) (current_pose_ wm1)]
         /\ csv w2 =
              (if csv_opens t && csv_written t then
                 csv (snd n)
                   ++ csv_record (Point.x (Pose.position (current_pose_ wm1)))
                        (Point.y (Pose.position (current_pose_ wm1)))
                        (planar_yaw atan2_generic (Pose.orientation (current_pose_ wm1)))
               else csv (snd n))%string
       else
         waypoint_id_ wm2 = waypoint_id_ (fst n)
         /\ waypoint_markers w2 = waypoint_markers (snd n)
         /\ csv w2 = csv (snd n).
Proof.
  intros Hreach Hwf Hid.
  pose proof (run_clears atan2_generic ticks (WaypointMaker_init, w0) n eq_refl Hreach)
    as Hclear.
  destruct (run_once_outcome atan2_generic t n Hwf Hid)
    as (wm1 & w1 & Hspin & (Hcsv & Hm & Hi & Hf & _) & Hrun).
  simpl in Hcsv, Hm, Hi, Hf. rewrite Hclear in Hf. simpl in Hf. rewrite Hf in Hrun.
  destruct (existsb is_press (inbox t)).
  - eexists wm1, w1, _, _. split; [exact Hspin|]. split; [exact Hrun|].
    simpl. rewrite markers_saveWaypointToCSV, csv_saveWaypointToCSV. simpl.
    rewrite Hm, Hcsv. repeat split.
  - exists wm1, w1, wm1, w1. repeat split; assumption.
Qed.

Lemma C7_save_iff_press_in_cycle_witness :
  run no_generic [Sample.press_tick] Sample.start = Some SampleRun.after_first
  /\ exists wm1 w1 wm2 w2,
      spinOnce (inbox Sample.press_tick) SampleRun.after_first = Some (wm1, w1)
      /\ run_once no_generic Sample.press_tick SampleRun.after_first = Some (wm2, w2)
      /\ save_waypoint_ wm2 = false
      /\ if existsb is_press (inbox Sample.press_tick) then
           waypoint_id_ wm2 = 1 + 1
           /\ waypoint_markers w2 =
                waypoint_markers (snd SampleRun.after_first)
                  ++ [createArrowMarker 10 1 (current_pose_ wm1)]
           /\ csv w2 =
                (csv (snd SampleRun.after_first)
                   ++ csv_record (Point.x (Pose.position (current_pose_ wm1)))
                        (Point.y (Pose.position (current_pose_ wm1)))
                        (planar_yaw no_generic (Pose.orientation (current_pose_ wm1))))%string
         else
           waypoint_id_ wm2 = 1
           /\ waypoint_markers w2 = waypoint_markers (snd SampleRun.after_first)
           /\ csv w2 = csv (snd SampleRun.after_first).
Proof.
  split; [reflexivity|].
  apply (C7_save_iff_press_in_cycle no_generic [Sample.press_tick] Sample.press_tick
           World_init SampleRun.after_first eq_refl eq_refl eq_refl).
Defined.

(** ** C8: the text of a record *)

(** C8, as stated, fails: the stream operator writes the shortest form with
    up to six significant digits, so the record of the example pose is
    [1,2,0], not [1.000000,2.000000,0.000000]. *)
Lemma C8_record_is_not_six_decimals :
  csv (saveWaypointToCSV no_generic true true Sample.pose12 World_init)
    = ("1,2,0" ++ Fmt.nl)%string
  /\ csv (saveWaypointToCSV no_generic true true Sample.pose12 World_init)
     <> ("1.000000,2.000000,0.000000" ++ Fmt.nl)%string.
Proof. split; vm_compute; [reflexivity | discriminate]. Qed.

(** C8 (amended): saving the pose [x = 1.0], [y = 2.0], [z = 0.0], [w = 1.0]
    yields the yaw [0.0] and appends exactly the line [1,2,0], comma
    separated and ended by a line feed; the six-decimal rendering of the
    same three numbers is what the accompanying log entry shows. *)
Theorem C8_example_pose_record (atan2_generic : float -> float -> float) (w : World) :
  atan2 atan2_generic (2.0 * (1.0 * 0.0)) (1.0 - 2.0 * (0.0 * 0.0)) = 0%float
  /\ csv (saveWaypointToCSV atan2_generic true true Sample.pose12 w)
     = (csv w ++ ("1,2,0" ++ Fmt.nl))%string
  /\ rosout (saveWaypointToCSV atan2_generic true true Sample.pose12 w)
     = rosout w
         ++ [(INFO, "ウェイポイントを保存しました: [1.000000, 2.000000, 0.000000]"%string)].
Proof. repeat split. Qed.

(** ** C9: the marker of a save *)

(** C9: at any save of any run, the marker published is the arrow at the
    pose current at that moment, with frame ["map"], namespace
    ["waypoints"], scale [(0.3, 0.1, 0.0)] and colour [(1, 0, 0, 1)], and its
    id is larger than the id of every marker published earlier in the
    run. *)
Theorem C9_marker_is_red_arrow_with_fresh_id
    (atan2_generic : float -> float -> float) (ticks : list Tick) (t : Tick)
    (n0 n1 : WaypointMaker * World) (wm1 : WaypointMaker) (w1 : World) :
  run atan2_generic ticks n0 = Some n1 ->
  spinOnce (inbox t) n1 = Some (wm1, w1) ->
  save_waypoint_ wm1 = true ->
  waypoint_id_ wm1 < Cxx.INT_MAX ->
  exists wm2 w2 earlier,
    run atan2_generic (ticks ++ [t]) n0 = Some (wm2, w2)
    /\ waypoint_markers w2 =
         waypoint_markers (snd n0) ++ earlier
           ++ [Marker.mk (Header.mk (now t) "map") "waypoints" (waypoint_id_ wm1)
                 Marker.ARROW Marker.ADD (current_pose_ wm1)
                 (Vector3.mk 0.3 0.1 0.0) (ColorRGBA.mk 1 0 0 1)]
    /\ Forall (fun m => Marker.id m < waypoint_id_ wm1) earlier
    /\ waypoint_id_ wm2 = waypoint_id_ wm1 + 1.
Proof.
  intros Hrun Hspin Hflag Hid.
  destruct (run_ids _ _ _ _ Hrun) as (earlier & Hm & Hids & _).
  destruct (spinOnce_frame _ _ _ Hspin) as (_ & Hm1 & Hi1 & _). simpl in Hm1, Hi1.
  eexists _, _, earlier. split; [|split; [|split]].
  - rewrite run_app, Hrun. cbn [mbind option_bind run].
    unfold run_once. rewrite Hspin. cbn [mbind option_bind].
    rewrite save_if_requested_set by assumption. reflexivity.
  - simpl. rewrite markers_saveWaypointToCSV. simpl.
    rewrite Hm1, Hm, <- app_assoc. reflexivity.
  - eapply Forall_impl; [exact Hids|]. intros m. simpl. lia.
  - reflexivity.
Qed.

Lemma C9_marker_is_red_arrow_with_fresh_id_witness :
  run no_generic [Sample.press_tick] Sample.start = Some SampleRun.after_first
  /\ exists wm2 w2 earlier,
      run no_generic ([Sample.press_tick] ++ [Sample.double_press_tick]) Sample.start
        = Some (wm2, w2)
      /\ waypoint_markers w2 =
           [] ++ earlier
              ++ [Marker.mk (Header.mk 20 "map") "waypoints" 1 Marker.ARROW Marker.ADD
                    Sample.pose12 (Vector3.mk 0.3 0.1 0.0) (ColorRGBA.mk 1 0 0 1)]
      /\ Forall (fun m => Marker.id m < 1) earlier
      /\ waypoint_id_ wm2 = 1 + 1.
Proof.
  split; [reflexivity|].
  apply (C9_marker_is_red_arrow_with_fresh_id no_generic [Sample.press_tick]
           Sample.double_press_tick Sample.start SampleRun.after_first
           (fst SampleRun.second_pending) (snd SampleRun.second_pending));
    reflexivity.
Defined.

(** ** C10: a save before the first pose *)

(** C10: as long as no localisation message has been dispatched, the
    stored pose is the constructor's ([x = 0], [y = 0], [z = 0], [w = 1]);
    a save made then computes the yaw [atan2 (0, 1) = 0] and records the
    waypoint [(0, 0, 0)]: it is the marker's pose, and the record in the
    file once the file opened and took the write. *)
Theorem C10_save_before_first_pose
    (atan2_generic : float -> float -> float) (ticks : list Tick) (t : Tick)
    (w0 : World) (n1 : WaypointMaker * World) (wm1 : WaypointMaker) (w1 : World) :
  no_pose_yet (ticks ++ [t]) = true ->
  run atan2_generic ticks (WaypointMaker_init, w0) = Some n1 ->
  spinOnce (inbox t) n1 = Some (wm1, w1) ->
  save_waypoint_ wm1 = true ->
  csv_opens t = true ->
  csv_written t = true ->
  waypoint_id_ wm1 < Cxx.INT_MAX ->
  exists wm2 w2,
    run_once atan2_generic t n1 = Some (wm2, w2)
    /\ current_pose_ wm1 = Pose.mk (Point.mk 0 0 0) (Quaternion.mk 0 0 0 1)
    /\ atan2 atan2_generic (2.0 * (1.0 * 0.0)) (1.0 - 2.0 * (0.0 * 0.0)) = 0%float
    /\ csv w2 = (csv (snd n1) ++ csv_record 0 0 0)%string
    /\ csv_record 0 0 0 = ("0,0,0" ++ Fmt.nl)%string
    /\ last (waypoint_markers w2)
       = Some (createArrowMarker (now t) (waypoint_id_ wm1)
                 (Pose.mk (Point.mk 0 0 0) (Quaternion.mk 0 0 0 1))).
Proof.
  intros Hnp Hrun Hspin Hflag Hopen Hwr Hid.
  unfold no_pose_yet in Hnp. rewrite forallb_app in Hnp.
  apply andb_true_iff in Hnp as [Hticks Ht]. simpl in Ht.
  rewrite andb_true_r in Ht. apply negb_true_iff in Ht.
  pose proof (run_pose _ _ _ _ Hticks Hrun) as Hp0. simpl in Hp0.
  destruct (spinOnce_frame _ _ _ Hspin) as (Hcsv & _ & _ & _ & Hp1).
  specialize (Hp1 Ht). simpl in Hcsv, Hp1. rewrite Hp0 in Hp1.
  eexists _, _. split; [|split; [exact Hp1|split; [reflexivity|split; [|split]]]].
  - unfold run_once. rewrite Hspin. cbn [mbind option_bind].
    apply save_if_requested_set; assumption.
  - simpl. rewrite csv_saveWaypointToCSV, Hopen, Hwr, Hp1. simpl. rewrite Hcsv.
    reflexivity.
  - reflexivity.
  - simpl. rewrite last_snoc, Hp1. reflexivity.
Qed.

Lemma C10_save_before_first_pose_witness :
  no_pose_yet ([Sample.press_tick_unwritable] ++ [Sample.press_tick]) = true
  /\ run no_generic [Sample.press_tick_unwritable] Sample.start
     = Some SampleRun.after_unwritable
  /\ exists wm2 w2,
      run_once no_generic Sample.press_tick SampleRun.after_unwritable = Some (wm2, w2)
      /\ current_pose_ (fst SampleRun.unwritable_pending)
         = Pose.mk (Point.mk 0 0 0) (Quaternion.mk 0 0 0 1)
      /\ atan2 no_generic (2.0 * (1.0 * 0.0)) (1.0 - 2.0 * (0.0 * 0.0)) = 0%float
      /\ csv w2 = (csv (snd SampleRun.after_unwritable) ++ csv_record 0 0 0)%string
      /\ csv_record 0 0 0 = ("0,0,0" ++ Fmt.nl)%string
      /\ last (waypoint_markers w2)
         = Some (createArrowMarker 10 1
                   (Pose.mk (Point.mk 0 0 0) (Quaternion.mk 0 0 0 1))).
Proof.
  split; [reflexivity|]. split; [reflexivity|].
  apply (C10_save_before_first_pose no_generic [Sample.press_tick_unwritable]
           Sample.press_tick World_init SampleRun.after_unwritable
           (fst SampleRun.unwritable_pending) (snd SampleRun.unwritable_pending));
    reflexivity.
Defined.

(** * Further properties of the code *)

(** ** The characters of a rendered double *)

Module FmtChars.
Import Fmt.
Local Open Scope string_scope.
Local Open Scope Z_scope.
Local Arguments is_numeric : simpl never.
Local Arguments digit : simpl never.

Lemma all_numeric_app (s t : string) :
  all_numeric (s ++ t) = all_numeric s && all_numeric t.
Proof.
  induction s as [|a s IH]; simpl; [reflexivity|]. rewrite IH. apply andb_assoc.
Qed.

Lemma all_numeric_digit (d : Z) : 0 <= d < 10 -> is_numeric (digit d) = true.
Proof.
  intros H. assert (d = 0 \/ d = 1 \/ d = 2 \/ d = 3 \/ d = 4 \/ d = 5 \/ d = 6
                    \/ d = 7 \/ d = 8 \/ d = 9) as Hd by lia.
  repeat (destruct Hd as [-> | Hd]; [reflexivity|]). subst d. reflexivity.
Qed.

Lemma all_numeric_fixed_digits (w : nat) (n : Z) : all_numeric (fixed_digits w n) = true.
Proof.
  revert n. induction w as [|w IH]; intros n; simpl; [reflexivity|].
  rewrite all_numeric_app, IH. cbn [all_numeric andb].
  rewrite all_numeric_digit; [reflexivity|].
  apply Z.mod_pos_bound. lia.
Qed.

Lemma all_numeric_substring (s : string) :
  all_numeric s = true -> forall i k, all_numeric (substring i k s) = true.
Proof.
  induction s as [|a s IH]; intros H i k.
  - destruct i, k; reflexivity.
  - simpl in H. apply andb_true_iff in H as [Ha Hs].
    destruct i; destruct k; simpl; try reflexivity.
    + rewrite Ha. apply IH, Hs.
    + apply IH, Hs.
    + apply IH, Hs.
Qed.

Lemma all_numeric_strip_zeros (s : string) :
  all_numeric s = true -> all_numeric (strip_zeros s) = true.
Proof.
  induction s as [|a s IH]; intros H; simpl; [reflexivity|].
  simpl in H. apply andb_true_iff in H as [Ha Hs]. specialize (IH Hs).
  destruct (strip_zeros s) eqn:Es.
  - destruct (Ascii.eqb a "0"); simpl; [reflexivity|]. rewrite Ha. reflexivity.
  - simpl. rewrite Ha. exact IH.
Qed.

Lemma all_numeric_point_frac (s : string) :
  all_numeric s = true -> all_numeric (point_frac s) = true.
Proof.
  intros H. unfold point_frac. pose proof (all_numeric_strip_zeros s H) as Hs.
  destruct (strip_zeros s); [reflexivity|]. exact Hs.
Qed.

Lemma all_numeric_zeros (k : nat) : all_numeric (zeros k) = true.
Proof. induction k as [|k IH]; simpl; [reflexivity | exact IH]. Qed.

Lemma all_numeric_sign_prefix (neg : bool) : all_numeric (sign_prefix neg) = true.
Proof. destruct neg; reflexivity. Qed.

Lemma all_numeric_fix_style (sig x : Z) : all_numeric (fix_style sig x) = true.
Proof.
  unfold fix_style. destruct (0 <=? x).
  - rewrite all_numeric_app, all_numeric_substring, all_numeric_point_frac;
      auto using all_numeric_substring, all_numeric_fixed_digits.
  - rewrite all_numeric_app, all_numeric_point_frac; [reflexivity|].
    rewrite all_numeric_app, all_numeric_zeros, all_numeric_fixed_digits. reflexivity.
Qed.

Lemma all_numeric_exp_style (sig x : Z) : all_numeric (exp_style sig x) = true.
Proof.
  unfold exp_style. rewrite !all_numeric_app.
  rewrite all_numeric_substring by apply all_numeric_fixed_digits.
  rewrite all_numeric_point_frac
    by (apply all_numeric_substring, all_numeric_fixed_digits).
  rewrite all_numeric_fixed_digits. destruct (x <? 0); reflexivity.
Qed.

(** Whatever the double, its stream rendering is made of digits, [.],
    [e], [+], [-] and the letters of [inf] and [nan]. *)
Lemma all_numeric_ostream_double (v : float) : all_numeric (ostream_double v) = true.
Proof.
  unfold ostream_double, printf_g. destruct (Prim2SF v) as [neg|neg| |neg m e].
  - rewrite all_numeric_app, all_numeric_sign_prefix. reflexivity.
  - rewrite all_numeric_app, all_numeric_sign_prefix. reflexivity.
  - reflexivity.
  - destruct (significand6 (fraction m e)) as [sig x].
    rewrite all_numeric_app, all_numeric_sign_prefix.
    destruct ((-4 <=? x) && (x <? 6));
      [apply all_numeric_fix_style | apply all_numeric_exp_style].
Qed.


(** A character outside that alphabet does not occur in such a text. *)
Lemma count_char_all_numeric (c : ascii) (s : string) :
  is_numeric c = false -> all_numeric s = true -> count_char c s = O.
Proof.
  intros Hc. induction s as [|a s IH]; simpl; [reflexivity|].
  intros H. apply andb_true_iff in H as [Ha Hs]. rewrite (IH Hs).
  destruct (Ascii.eqb a c) eqn:E; [|reflexivity].
  apply Ascii.eqb_eq in E. subst a. congruence.
Qed.

Lemma newlines_count_char (s : string) : newlines s = count_char "010" s.
Proof. induction s as [|a s IH]; simpl; [reflexivity|]. rewrite IH. reflexivity. Qed.

End FmtChars.


(** ** Summaries of the callbacks and of a run *)

Lemma string_app_assoc (a b c : string) : ((a ++ b) ++ c = a ++ (b ++ c))%string.
Proof. induction a as [|x a IH]; simpl; [reflexivity|]. rewrite IH. reflexivity. Qed.

Lemma string_app_nil_r (a : string) : (a ++ "" = a)%string.
Proof. induction a as [|x a IH]; simpl; [reflexivity|]. rewrite IH. reflexivity. Qed.

Lemma latest_pose_app (a b : list Msg) (p : Pose.t) :
  latest_pose (a ++ b) p = latest_pose b (latest_pose a p).
Proof.
  revert p. induction a as [|m a IH]; intros p; simpl; [reflexivity|].
  destruct m; apply IH.
Qed.

Lemma joy_twists_app (a b : list Msg) : joy_twists (a ++ b) = joy_twists a ++ joy_twists b.
Proof.
  induction a as [|m a IH]; simpl; [reflexivity|].
  destruct m as [j|msg]; [|exact IH].
  destruct (twist_of j); simpl; rewrite IH; reflexivity.
Qed.

Lemma pose_logs_app (a b : list Msg) : pose_logs (a ++ b) = pose_logs a ++ pose_logs b.
Proof.
  induction a as [|m a IH]; simpl; [reflexivity|].
  destruct m as [j|msg]; [exact IH|]. rewrite IH. reflexivity.
Qed.

Lemma spin_result_nil (n : WaypointMaker * World) : spin_result [] n = n.
Proof.
  destruct n as [[p f i] [c m v r]]. unfold spin_result. simpl.
  rewrite orb_false_r, !app_nil_r. reflexivity.
Qed.

Lemma spin_result_app (a b : list Msg) (n : WaypointMaker * World) :
  spin_result b (spin_result a n) = spin_result (a ++ b) n.
Proof.
  unfold spin_result. simpl.
  rewrite latest_pose_app, existsb_app, joy_twists_app, pose_logs_app.
  rewrite orb_assoc, !app_assoc. reflexivity.
Qed.

Lemma joyCallback_eq (joy_msg : Joy.t) (n : WaypointMaker * World) :
  joyCallback joy_msg n =
    if wf_joy joy_msg then Some (spin_result [JoyMsg joy_msg] n) else None.
Proof.
  destruct n as [[p f i] [c m v r]].
  destruct (wf_joy joy_msg) eqn:Hwf; unfold wf_joy in Hwf.
  - apply andb_true_iff in Hwf as [Hb Ha]. apply Nat.leb_le in Hb, Ha.
    destruct (at_index_wf (Joy.buttons joy_msg) 2) as [b Eb]; [lia|].
    destruct (at_index_wf (Joy.axes joy_msg) 3) as [a3 E3]; [lia|].
    destruct (at_index_wf (Joy.axes joy_msg) 0) as [a0 E0]; [lia|].
    unfold joyCallback, spin_result, joy_twists, twist_of, existsb, is_press.
    rewrite Eb, E3, E0. cbn [mbind option_bind fst snd latest_pose pose_logs].
    cbn [current_pose_ save_waypoint_ waypoint_id_ csv waypoint_markers cmd_vel rosout].
    rewrite orb_false_r, app_nil_r.
    destruct (b =? 1); rewrite ?orb_true_r, ?orb_false_r; reflexivity.
  - unfold joyCallback, Cxx.at_index. apply andb_false_iff in Hwf as [H|H];
      apply Nat.leb_gt in H.
    + rewrite (lookup_ge_None_2 (Joy.buttons joy_msg) 2) by lia. reflexivity.
    + destruct (Joy.buttons joy_msg !! 2%nat); [|reflexivity].
      cbn [mbind option_bind].
      rewrite (lookup_ge_None_2 (Joy.axes joy_msg) 3) by lia. reflexivity.
Qed.

Lemma amclPoseCallback_eq (msg : PoseWithCovarianceStamped.t) (n : WaypointMaker * World) :
  amclPoseCallback msg n = spin_result [AmclPoseMsg msg] n.
Proof.
  destruct n as [[p f i] [c m v r]].
  unfold amclPoseCallback, spin_result, ROS_INFO, ros_log. simpl.
  rewrite orb_false_r, !app_nil_r, <- app_assoc. reflexivity.
Qed.

Lemma spinOnce_eq (pending : list Msg) (n : WaypointMaker * World) :
  spinOnce pending n =
    if forallb wf_msg pending then Some (spin_result pending n) else None.
Proof.
  revert n. induction pending as [|m rest IH]; intros n.
  - simpl. rewrite spin_result_nil. reflexivity.
  - change (m :: rest) with ([m] ++ rest) at 3. rewrite <- spin_result_app.
    simpl. destruct m as [j|msg]; simpl.
    + rewrite joyCallback_eq. destruct (wf_joy j); simpl; [apply IH | reflexivity].
    + rewrite amclPoseCallback_eq. apply IH.
Qed.

Section RunSummary.

Variable g : float -> float -> float.

Lemma rosout_saveWaypointToCSV (opens written : bool) (p : Pose.t) (w : World) :
  rosout (saveWaypointToCSV g opens written p w) =
    rosout w
      ++ [if opens then
            (INFO, ("ウェイポイントを保存しました: ["
                      ++ Fmt.printf_f (Point.x (Pose.position p)) ++ ", "
                      ++ Fmt.printf_f (Point.y (Pose.position p)) ++ ", "
                      ++ Fmt.printf_f (planar_yaw g (Pose.orientation p))
                      ++ "]")%string)
          else (ERROR, "CSVファイルを開けませんでした"%string)].
Proof. destruct opens, written; reflexivity. Qed.

Lemma cmd_vel_saveWaypointToCSV (opens written : bool) (p : Pose.t) (w : World) :
  cmd_vel (saveWaypointToCSV g opens written p w) = cmd_vel w.
Proof. destruct opens, written; reflexivity. Qed.

(** One iteration entered with the flag clear, when it completes. *)
Lemma run_once_result (t : Tick) (n n1 : WaypointMaker * World) :
  save_waypoint_ (fst n) = false ->
  run_once g t n = Some n1 ->
  n1 = run_result g [t] n.
Proof.
  destruct n as [[p f i] [c m v r]]. simpl. intros ->.
  unfold run_once. rewrite spinOnce_eq.
  destruct (forallb wf_msg (inbox t)); [|discriminate].
  cbn [mbind option_bind]. unfold spin_result, save_if_requested, ROS_INFO, ros_log.
  simpl. unfold run_result, dispatched, saving_ticks. simpl. rewrite !app_nil_r.
  destruct (existsb is_press (inbox t)) eqn:Hp; simpl.
  - unfold Cxx.int_incr. destruct (i <? Cxx.INT_MAX); [|discriminate].
    simpl. intros [= <-]. unfold marker_pub_publish. simpl.
    rewrite csv_saveWaypointToCSV, markers_saveWaypointToCSV,
      cmd_vel_saveWaypointToCSV, rosout_saveWaypointToCSV. simpl.
    rewrite string_app_nil_r, <- !app_assoc. simpl.
    destruct (csv_opens t), (csv_written t); simpl; rewrite ?string_app_nil_r;
      reflexivity.
  - intros [= <-]. rewrite ?Z.add_0_r, ?string_app_nil_r, ?app_nil_r. reflexivity.
Qed.

Lemma run_result_cons (t : Tick) (rest : list Tick) (n : WaypointMaker * World) :
  run_result g rest (run_result g [t] n) = run_result g (t :: rest) n.
Proof.
  unfold run_result, dispatched, saving_ticks. simpl. rewrite !app_nil_r.
  rewrite latest_pose_app, joy_twists_app, string_app_nil_r.
  rewrite string_app_assoc, <- !app_assoc.
  destruct (existsb is_press (inbox t)); simpl.
  - do 2 f_equal. lia.
  - change (Z.of_nat 0) with 0. rewrite !Z.add_0_r. reflexivity.
Qed.

(** A run entered with the flag clear, when it completes. *)
Lemma run_summary (ticks : list Tick) (n n' : WaypointMaker * World) :
  save_waypoint_ (fst n) = false ->
  run g ticks n = Some n' ->
  n' = run_result g ticks n.
Proof.
  revert n. induction ticks as [|t rest IH]; intros n Hf; simpl.
  - intros [= <-]. destruct n as [[p f i] [c m v r]]. simpl in Hf. subst f.
    unfold run_result. simpl. rewrite Z.add_0_r, string_app_nil_r, !app_nil_r.
    reflexivity.
  - destruct (run_once g t n) as [n1|] eqn:H1; [|discriminate]. simpl. intros Hr.
    pose proof (run_once_result t n n1 Hf H1) as ->.
    rewrite <- run_result_cons. apply IH; [reflexivity | exact Hr].
Qed.

(** A run completes when its messages are long enough and the counter
    has room for its saves. *)
Lemma run_defined (ticks : list Tick) (n : WaypointMaker * World) :
  save_waypoint_ (fst n) = false ->
  forallb wf_tick ticks = true ->
  waypoint_id_ (fst n) + Z.of_nat (length (saving_ticks ticks)) <= Cxx.INT_MAX ->
  exists n', run g ticks n = Some n'.
Proof.
  revert n. induction ticks as [|t rest IH]; intros n Hf Hwf Hid; simpl; [eauto|].
  simpl in Hwf. apply andb_true_iff in Hwf as [Ht Hrest].
  unfold saving_ticks in Hid. simpl in Hid.
  assert (Hstep : exists n1, run_once g t n = Some n1).
  { unfold run_once. rewrite spinOnce_eq. unfold wf_tick in Ht. rewrite Ht.
    cbn [mbind option_bind]. unfold save_if_requested, spin_result. simpl.
    rewrite Hf. simpl. destruct (existsb is_press (inbox t)); [|eauto].
    unfold Cxx.int_incr. simpl in Hid.
    replace (waypoint_id_ n.1 <? Cxx.INT_MAX) with true
      by (symmetry; apply Z.ltb_lt; lia).
    simpl. eauto. }
  destruct Hstep as [n1 H1]. rewrite H1. simpl.
  pose proof (run_once_result t n n1 Hf H1) as Hn1.
  apply IH; [subst n1; reflexivity | exact Hrest |].
  subst n1. unfold run_result, saving_ticks. simpl.
  fold (saving_ticks rest) in Hid |- *.
  destruct (existsb is_press (inbox t)); simpl in *; lia.
Qed.

End RunSummary.

(** ** Counting what a run wrote *)

Section Counting.

Variable g : float -> float -> float.

Lemma writing_ticks_cons (t : Tick) (rest : list Tick) :
  writing_ticks (t :: rest) =
    if existsb is_press (inbox t) && csv_opens t then t :: writing_ticks rest
    else writing_ticks rest.
Proof. reflexivity. Qed.

Lemma saving_ticks_cons (t : Tick) (rest : list Tick) :
  saving_ticks (t :: rest) =
    if existsb is_press (inbox t) then t :: saving_ticks rest else saving_ticks rest.
Proof. reflexivity. Qed.

Lemma written_ticks_cons (t : Tick) (rest : list Tick) :
  written_ticks (t :: rest) =
    if existsb is_press (inbox t) && (csv_opens t && csv_written t)
    then t :: written_ticks rest
    else written_ticks rest.
Proof. reflexivity. Qed.

Lemma unopened_ticks_cons (t : Tick) (rest : list Tick) :
  unopened_ticks (t :: rest) =
    if existsb is_press (inbox t) && negb (csv_opens t)
    then t :: unopened_ticks rest
    else unopened_ticks rest.
Proof. reflexivity. Qed.

Lemma newlines_records (ticks : list Tick) (p0 : Pose.t) :
  newlines (records g ticks p0) = length (written_ticks ticks).
Proof.
  revert p0. induction ticks as [|t rest IH]; intros p0; [reflexivity|].
  rewrite written_ticks_cons. cbn [records].
  rewrite FmtFacts.newlines_app, IH.
  destruct (existsb is_press (inbox t) && (csv_opens t && csv_written t));
    [|reflexivity].
  rewrite csv_record_one_line. reflexivity.
Qed.


(** A write is attempted only on a file that opened. *)
Lemma written_le_writing (ticks : list Tick) :
  (length (written_ticks ticks) <= length (writing_ticks ticks))%nat.
Proof.
  induction ticks as [|t rest IH]; [reflexivity|].
  rewrite written_ticks_cons, writing_ticks_cons.
  destruct (existsb is_press (inbox t)), (csv_opens t), (csv_written t);
    cbn [andb length]; lia.
Qed.

(** A press is served on a file that opens or on one that does not. *)
Lemma saving_split (ticks : list Tick) :
  (length (unopened_ticks ticks) + length (writing_ticks ticks))%nat
    = length (saving_ticks ticks).
Proof.
  induction ticks as [|t rest IH]; [reflexivity|].
  rewrite unopened_ticks_cons, writing_ticks_cons, saving_ticks_cons.
  destruct (existsb is_press (inbox t)), (csv_opens t); cbn [andb negb length]; lia.
Qed.

Lemma ids_arrows (ticks : list Tick) (p0 : Pose.t) (id0 : Z) :
  map Marker.id (arrows ticks p0 id0)
    = seqZ id0 (Z.of_nat (length (saving_ticks ticks))).
Proof.
  revert p0 id0. induction ticks as [|t rest IH]; intros p0 id0; [reflexivity|].
  rewrite saving_ticks_cons. cbn [arrows].
  destruct (existsb is_press (inbox t)); [|apply IH].
  cbn [map length]. rewrite IH, Nat2Z.inj_succ, (seqZ_cons id0) by lia.
  rewrite Z.pred_succ. reflexivity.
Qed.

Lemma stamps_arrows (ticks : list Tick) (p0 : Pose.t) (id0 : Z) :
  map (fun m => Header.stamp (Marker.header m)) (arrows ticks p0 id0)
    = map now (saving_ticks ticks).
Proof.
  revert p0 id0. induction ticks as [|t rest IH]; intros p0 id0; [reflexivity|].
  rewrite saving_ticks_cons. cbn [arrows].
  destruct (existsb is_press (inbox t)); [|apply IH].
  cbn [map]. rewrite IH. reflexivity.
Qed.

Lemma errors_app (a b : list (Level * string)) :
  errors (a ++ b) = (errors a + errors b)%nat.
Proof. unfold errors. rewrite List.filter_app, length_app. reflexivity. Qed.

Lemma errors_pose_logs (pending : list Msg) : errors (pose_logs pending) = O.
Proof.
  induction pending as [|m rest IH]; [reflexivity|].
  destruct m as [j|msg]; [exact IH|].
  cbn [pose_logs]. rewrite errors_app, IH. reflexivity.
Qed.

Lemma errors_logs (ticks : list Tick) (p0 : Pose.t) :
  (errors (logs g ticks p0) + length (writing_ticks ticks))%nat
    = length (saving_ticks ticks).
Proof.
  revert p0. induction ticks as [|t rest IH]; intros p0; [reflexivity|].
  rewrite writing_ticks_cons, saving_ticks_cons. cbn [logs].
  rewrite !errors_app, errors_pose_logs.
  specialize (IH (latest_pose (inbox t) p0)).
  destruct (existsb is_press (inbox t)); cbn [andb].
  - destruct (csv_opens t); cbn [length];
      change (errors (save_log g true (latest_pose (inbox t) p0))) with O;
      change (errors (save_log g false (latest_pose (inbox t) p0))) with 1%nat; lia.
  - change (errors []) with O. lia.
Qed.

(** A run that completes was given messages long enough. *)
Lemma run_wf (ticks : list Tick) (n n' : WaypointMaker * World) :
  run g ticks n = Some n' -> forallb wf_tick ticks = true.
Proof.
  revert n. induction ticks as [|t rest IH]; intros n; simpl; [reflexivity|].
  destruct (run_once g t n) as [n1|] eqn:H1; [|discriminate]. simpl. intros Hr.
  rewrite (IH n1 Hr), andb_true_r.
  unfold run_once in H1. rewrite spinOnce_eq in H1. unfold wf_tick.
  destruct (forallb wf_msg (inbox t)); [reflexivity | discriminate].
Qed.

Lemma twist_of_wf (joy_msg : Joy.t) :
  wf_joy joy_msg = true -> exists tw, twist_of joy_msg = Some tw.
Proof.
  unfold wf_joy. intros H. apply andb_true_iff in H as [_ Ha]. apply Nat.leb_le in Ha.
  unfold twist_of.
  destruct (at_index_wf (Joy.axes joy_msg) 3) as [a3 ->]; [lia|].
  destruct (at_index_wf (Joy.axes joy_msg) 0) as [a0 ->]; [lia|].
  simpl. eauto.
Qed.

Lemma length_joy_twists (pending : list Msg) :
  forallb wf_msg pending = true ->
  length (joy_twists pending) = length (List.filter is_joy pending).
Proof.
  induction pending as [|m rest IH]; [reflexivity|]. simpl.
  intros H. apply andb_true_iff in H as [Hm Hr]. specialize (IH Hr).
  destruct m as [j|msg]; [|exact IH]. cbn [is_joy is_pose negb length].
  destruct (twist_of_wf j Hm) as [tw ->]. simpl. rewrite IH. reflexivity.
Qed.

Lemma wf_dispatched (ticks : list Tick) :
  forallb wf_tick ticks = true -> forallb wf_msg (dispatched ticks) = true.
Proof.
  unfold dispatched. induction ticks as [|t rest IH]; [reflexivity|]. simpl.
  intros H. apply andb_true_iff in H as [Ht Hr].
  rewrite forallb_app, (IH Hr), andb_true_r. exact Ht.
Qed.

End Counting.

(** ** Products with a zero keep track of the sign *)

Lemma classify_cases (v : float) :
  match Prim2SF v with
  | S754_zero s => classify v = if s then NZero else PZero
  | S754_infinity s => classify v = if s then NInf else PInf
  | S754_nan => classify v = NaN
  | S754_finite s m e =>
      if s then classify v = NNormal \/ classify v = NSubn
      else classify v = PNormal \/ classify v = PSubn
  end.
Proof.
  rewrite classify_spec. unfold SF64classify, SFclassify.
  destruct (Prim2SF v) as [s|s| |s m e]; try reflexivity.
  destruct s; destruct (Z.pos (digits2_pos m) =? prec); auto.
Qed.

Lemma mul_zero_neg (v : float) :
  classify v = NNormal \/ classify v = NSubn \/ classify v = NZero ->
  (v * 0)%float = (-0)%float.
Proof.
  intros H. rewrite <- (SF2Prim_Prim2SF (v * 0)), mul_spec.
  change (Prim2SF 0) with (S754_zero false).
  pose proof (classify_cases v) as C.
  destruct (Prim2SF v) as [s|s| |s m e]; try destruct s; try reflexivity;
    exfalso; intuition congruence.
Qed.

Lemma mul_zero_pos (v : float) :
  classify v = PNormal \/ classify v = PSubn \/ classify v = PZero ->
  (v * 0)%float = 0%float.
Proof.
  intros H. rewrite <- (SF2Prim_Prim2SF (v * 0)), mul_spec.
  change (Prim2SF 0) with (S754_zero false).
  pose proof (classify_cases v) as C.
  destruct (Prim2SF v) as [s|s| |s m e]; try destruct s; try reflexivity;
    exfalso; intuition congruence.
Qed.

(** ** X1 to X3: the callbacks and one iteration, case by case *)

(** X1: [ros::spinOnce] fails exactly when some gamepad message is too
    short; otherwise the pose becomes the last one a localisation message
    carried, the flag is raised if any message has button 2 down, one
    velocity command per gamepad message and two log entries per pose are
    appended in order of arrival, and the counter, the file and the
    markers are untouched. *)
Theorem X1_spinOnce_in_one_step
    (pending : list Msg) (wm : WaypointMaker) (w : World) :
  spinOnce pending (wm, w) =
    if forallb wf_msg pending then
      Some ({| current_pose_ := latest_pose pending (current_pose_ wm);
               save_waypoint_ := save_waypoint_ wm || existsb is_press pending;
               waypoint_id_ := waypoint_id_ wm |},
            {| csv := csv w;
               waypoint_markers := waypoint_markers w;
               cmd_vel := cmd_vel w ++ joy_twists pending;
               rosout := rosout w ++ pose_logs pending |})
    else None.
Proof. rewrite spinOnce_eq. reflexivity. Qed.

(** X2: [joyCallback] stays within its vectors exactly when the message
    has at least three buttons and four axes. *)
Theorem X2_joyCallback_defined_iff (joy_msg : Joy.t) (n : WaypointMaker * World) :
  is_Some (joyCallback joy_msg n)
  <-> (3 <= length (Joy.buttons joy_msg))%nat /\ (4 <= length (Joy.axes joy_msg))%nat.
Proof.
  rewrite joyCallback_eq. unfold wf_joy. split.
  - intros [n' H].
    destruct (3 <=? length (Joy.buttons joy_msg))%nat eqn:Hb;
      destruct (4 <=? length (Joy.axes joy_msg))%nat eqn:Ha;
      try discriminate.
    apply Nat.leb_le in Hb, Ha. auto.
  - intros [Hb Ha]. apply Nat.leb_le in Hb, Ha. rewrite Hb, Ha. simpl. eauto.
Qed.

(** X3: an iteration of the loop runs into undefined behaviour in two
    cases only: a gamepad message too short, or a save to perform with
    the counter at [INT_MAX]. *)
Theorem X3_run_once_defined_iff
    (atan2_generic : float -> float -> float) (t : Tick) (n : WaypointMaker * World) :
  is_Some (run_once atan2_generic t n)
  <-> wf_tick t = true
      /\ (save_waypoint_ (fst n) || existsb is_press (inbox t) = true ->
          waypoint_id_ (fst n) < Cxx.INT_MAX).
Proof.
  unfold run_once, wf_tick. rewrite spinOnce_eq.
  destruct (forallb wf_msg (inbox t)); cbn [mbind option_bind].
  - unfold save_if_requested, spin_result, Cxx.int_incr.
    cbn [fst snd save_waypoint_ waypoint_id_].
    destruct (save_waypoint_ n.1 || existsb is_press (inbox t)).
    + destruct (waypoint_id_ n.1 <? Cxx.INT_MAX) eqn:Hid; cbn [mbind option_bind].
      * apply Z.ltb_lt in Hid. split; [auto | eauto].
      * apply Z.ltb_ge in Hid. split.
        -- intros [n' H]. discriminate.
        -- intros [_ H]. specialize (H eq_refl). lia.
    + split; [intros _; split; [reflexivity | discriminate] | eauto].
  - split; [intros [n' H]; discriminate | intros [H _]; discriminate].
Qed.

(** ** X4: the whole program completes *)

(** X4: with gamepad messages long enough and no more than [INT_MAX]
    iterations that save, [main] runs to its end and returns 0. *)
Theorem X4_main_completes
    (atan2_generic : float -> float -> float) (file0 : string) (ticks : list Tick) :
  forallb wf_tick ticks = true ->
  Z.of_nat (length (saving_ticks ticks)) <= Cxx.INT_MAX ->
  exists w, main atan2_generic file0 ticks = Some (0, w).
Proof.
  intros Hwf Hid. unfold main.
  destruct (run_defined atan2_generic ticks
              (WaypointMaker_init, World_at_start file0) eq_refl Hwf)
    as [n' ->]; [simpl; lia|].
  simpl. eauto.
Qed.

Lemma X4_main_completes_witness :
  forallb wf_tick Sample2.session = true
  /\ exists w, main no_generic Sample2.old_file Sample2.session = Some (0, w).
Proof.
  split; [reflexivity|].
  apply (X4_main_completes no_generic Sample2.old_file Sample2.session);
    [reflexivity | vm_compute; discriminate].
Defined.

(** ** X5: which pose a save records *)



(** ** X6 to X9: what a whole session leaves behind *)

(** X6: over a whole session the velocity topic receives exactly one
    command per gamepad message dispatched, in order of arrival, each with
    the message's [axes[3]] and [axes[0]]; saves and localisation messages
    add none. *)
Theorem X6_main_cmd_vel_trace
    (atan2_generic : float -> float -> float) (file0 : string) (ticks : list Tick)
    (rc : Z) (w : World) :
  main atan2_generic file0 ticks = Some (rc, w) ->
  rc = 0
  /\ cmd_vel w = joy_twists (dispatched ticks)
  /\ length (cmd_vel w) = length (List.filter is_joy (dispatched ticks)).
Proof.
  unfold main.
  destruct (run atan2_generic ticks (WaypointMaker_init, World_at_start file0))
    as [n'|] eqn:Hrun; [|discriminate].
  cbn [mbind option_bind]. intros [= <- <-].
  pose proof (run_wf _ _ _ _ Hrun) as Hwf.
  apply run_summary in Hrun; [|reflexivity]. subst n'.
  cbn [snd run_result cmd_vel World_at_start fst]. rewrite app_nil_l.
  repeat split. apply length_joy_twists, wf_dispatched, Hwf.
Qed.

Lemma X6_main_cmd_vel_trace_witness :
  main no_generic Sample2.old_file Sample2.session = Some (0, Sample2.session_world)
  /\ 0 = 0
  /\ cmd_vel Sample2.session_world = joy_twists (dispatched Sample2.session)
  /\ length (cmd_vel Sample2.session_world)
     = length (List.filter is_joy (dispatched Sample2.session)).
Proof.
  split; [reflexivity|].
  apply (X6_main_cmd_vel_trace no_generic Sample2.old_file Sample2.session 0
           Sample2.session_world eq_refl).
Defined.



(** In [Sample2.long_session] four presses are served: two records reach
    the file, one open fails and one write is refused. *)
Example long_session_file :
  csv Sample2.long_session_world
    = ("9,9,0" ++ Fmt.nl ++ "0,0,0" ++ Fmt.nl ++ "3,4,-0" ++ Fmt.nl)%string
  /\ length (saving_ticks Sample2.long_session) = 4%nat
  /\ length (writing_ticks Sample2.long_session) = 3%nat
  /\ length (written_ticks Sample2.long_session) = 2%nat
  /\ errors (rosout Sample2.long_session_world) = 1%nat.
Proof. repeat split; vm_compute; reflexivity. Qed.

Example session_file :
  csv Sample2.session_world
    = ("9,9,0" ++ Fmt.nl ++ "0,0,0" ++ Fmt.nl ++ "3,4,-0" ++ Fmt.nl)%string.
Proof. vm_compute. reflexivity. Qed.

(** X8: the markers of a session are numbered 0, 1, 2, ... without gaps,
    one per iteration that saw a press, whether or not its record could
    be written, and each is stamped with the clock of its iteration. *)
Theorem X8_main_marker_ids_and_stamps
    (atan2_generic : float -> float -> float) (file0 : string) (ticks : list Tick)
    (rc : Z) (w : World) :
  main atan2_generic file0 ticks = Some (rc, w) ->
  map Marker.id (waypoint_markers w)
    = seqZ 0 (Z.of_nat (length (saving_ticks ticks)))
  /\ map (fun m => Header.stamp (Marker.header m)) (waypoint_markers w)
     = map now (saving_ticks ticks)
  /\ (length (writing_ticks ticks) <= length (waypoint_markers w))%nat.
Proof.
  unfold main.
  destruct (run atan2_generic ticks (WaypointMaker_init, World_at_start file0))
    as [n'|] eqn:Hrun; [|discriminate].
  cbn [mbind option_bind]. intros [= <- <-].
  apply run_summary in Hrun; [|reflexivity]. subst n'.
  cbn [snd run_result waypoint_markers World_at_start fst]. rewrite app_nil_l.
  split; [apply ids_arrows|]. split; [apply stamps_arrows|].
  rewrite <- (length_map Marker.id), ids_arrows, length_seqZ, Nat2Z.id.
  rewrite <- (errors_logs atan2_generic ticks (current_pose_ WaypointMaker_init)). lia.
Qed.

Lemma X8_main_marker_ids_and_stamps_witness :
  main no_generic Sample2.old_file Sample2.session = Some (0, Sample2.session_world)
  /\ map Marker.id (waypoint_markers Sample2.session_world)
     = seqZ 0 (Z.of_nat (length (saving_ticks Sample2.session)))
  /\ map (fun m => Header.stamp (Marker.header m)) (waypoint_markers Sample2.session_world)
     = map now (saving_ticks Sample2.session)
  /\ (length (writing_ticks Sample2.session)
      <= length (waypoint_markers Sample2.session_world))%nat.
Proof.
  split; [reflexivity|].
  apply (X8_main_marker_ids_and_stamps no_generic Sample2.old_file Sample2.session 0
           Sample2.session_world eq_refl).
Defined.

(** X9: the log receives exactly one error entry per iteration that
    served a press on a file that did not open, and no other error entry.
    A save whose file opened logs the success message whether or not the
    write reached the file, so a refused write leaves no error: the
    error entries and the lines added to the file never exceed the
    presses served, and fall short of them by the refused writes. *)
Theorem X9_main_one_error_per_failed_open
    (atan2_generic : float -> float -> float) (file0 : string) (ticks : list Tick)
    (rc : Z) (w : World) :
  main atan2_generic file0 ticks = Some (rc, w) ->
  rosout w = logs atan2_generic ticks (current_pose_ WaypointMaker_init)
  /\ errors (rosout w) = length (unopened_ticks ticks)
  /\ exists appended,
      csv w = (file0 ++ appended)%string
      /\ (errors (rosout w) + newlines appended
            + (length (writing_ticks ticks) - length (written_ticks ticks)))%nat
         = length (saving_ticks ticks).
Proof.
  unfold main.
  destruct (run atan2_generic ticks (WaypointMaker_init, World_at_start file0))
    as [n'|] eqn:Hrun; [|discriminate].
  cbn [mbind option_bind]. intros [= <- <-].
  apply run_summary in Hrun; [|reflexivity]. subst n'.
  cbn [snd run_result rosout csv World_at_start fst]. rewrite app_nil_l.
  pose proof (errors_logs atan2_generic ticks (current_pose_ WaypointMaker_init)) as He.
  pose proof (saving_split ticks) as Hs.
  pose proof (written_le_writing ticks) as Hw.
  split; [reflexivity|]. split; [lia|].
  eexists. split; [reflexivity|]. rewrite newlines_records. lia.
Qed.

Lemma X9_main_one_error_per_failed_open_witness :
  main no_generic Sample2.old_file Sample2.long_session
    = Some (0, Sample2.long_session_world)
  /\ rosout Sample2.long_session_world
     = logs no_generic Sample2.long_session (current_pose_ WaypointMaker_init)
  /\ errors (rosout Sample2.long_session_world)
     = length (unopened_ticks Sample2.long_session)
  /\ exists appended,
      csv Sample2.long_session_world = (Sample2.old_file ++ appended)%string
      /\ (errors (rosout Sample2.long_session_world) + newlines appended
            + (length (writing_ticks Sample2.long_session)
               - length (written_ticks Sample2.long_session)))%nat
         = length (saving_ticks Sample2.long_session).
Proof.
  split; [reflexivity|].
  apply (X9_main_one_error_per_failed_open no_generic Sample2.old_file
           Sample2.long_session 0 Sample2.long_session_world eq_refl).
Defined.

(** ** X10 and X11: the text of a record *)

(** X10: whatever the pose, NaN and infinities included, a successful
    save appends three fields separated by two commas and ended by a line
    feed; each field is made only of digits, [.], [e], [+], [-] and the
    letters of [inf] and [nan], so it holds no comma, blank or line feed. *)
Theorem X10_record_has_three_clean_fields
    (atan2_generic : float -> float -> float) (pose : Pose.t) (w : World) :
  exists fx fy fyaw,
    csv (saveWaypointToCSV atan2_generic true true pose w)
      = (csv w ++ fx ++ "," ++ fy ++ "," ++ fyaw ++ Fmt.nl)%string
    /\ Forall (fun f => all_numeric f = true
                        /\ count_char "," f = O
                        /\ count_char " " f = O
                        /\ newlines f = O)
         [fx; fy; fyaw].
Proof.
  assert (H : forall v, all_numeric (Fmt.ostream_double v) = true
                        /\ count_char "," (Fmt.ostream_double v) = O
                        /\ count_char " " (Fmt.ostream_double v) = O
                        /\ newlines (Fmt.ostream_double v) = O).
  { intros v. pose proof (FmtChars.all_numeric_ostream_double v) as Hv.
    split; [exact Hv|].
    split; [apply FmtChars.count_char_all_numeric; [reflexivity | exact Hv]|].
    split; [apply FmtChars.count_char_all_numeric; [reflexivity | exact Hv]|].
    apply FmtFacts.newlines_ostream_double. }
  eexists _, _, _. split; [reflexivity|].
  repeat constructor; apply H.
Qed.

(** X11: for a pose without rotation ([z = 0]) the yaw is a zero that
    takes the sign of [w]: a finite negative [w], which denotes the same
    orientation as its opposite, is recorded as [-0], a finite positive
    one as [0]. *)
Theorem X11_zero_yaw_takes_sign_of_w
    (atan2_generic : float -> float -> float)
    (x y pz qx qy qw : float) (w : World) :
  (classify qw = NNormal \/ classify qw = NSubn \/ classify qw = NZero ->
   csv (saveWaypointToCSV atan2_generic true true
          (Pose.mk (Point.mk x y pz) (Quaternion.mk qx qy 0 qw)) w)
   = (csv w ++ Fmt.ostream_double x ++ "," ++ Fmt.ostream_double y ++ ",-0" ++ Fmt.nl)%string)
  /\ (classify qw = PNormal \/ classify qw = PSubn \/ classify qw = PZero ->
      csv (saveWaypointToCSV atan2_generic true true
             (Pose.mk (Point.mk x y pz) (Quaternion.mk qx qy 0 qw)) w)
      = (csv w ++ Fmt.ostream_double x ++ "," ++ Fmt.ostream_double y ++ ",0" ++ Fmt.nl)%string).
Proof.
  split; intros H.
  - rewrite csv_saveWaypointToCSV. unfold planar_yaw. cbn [Pose.orientation Pose.position
      Point.x Point.y Quaternion.w Quaternion.z].
    rewrite (mul_zero_neg qw H). reflexivity.
  - rewrite csv_saveWaypointToCSV. unfold planar_yaw. cbn [Pose.orientation Pose.position
      Point.x Point.y Quaternion.w Quaternion.z].
    rewrite (mul_zero_pos qw H). reflexivity.
Qed.

Lemma X11_zero_yaw_takes_sign_of_w_witness :
  classify (-1)%float = NNormal
  /\ csv (saveWaypointToCSV no_generic true true Sample2.pose34 World_init)
     = ("" ++ Fmt.ostream_double 3 ++ "," ++ Fmt.ostream_double 4 ++ ",-0" ++ Fmt.nl)%string.
Proof.
  split; [reflexivity|].
  apply (proj1 (X11_zero_yaw_takes_sign_of_w no_generic 3 4 0 0 0 (-1) World_init)).
  left. reflexivity.
Defined.

(** ** X12: the members of the node after a run *)

(** X12: a run entered with the flag clear ends with the flag clear, the
    pose of the last localisation message dispatched (the earlier pose
    when there was none) and a counter advanced by the number of
    iterations that saw a press, whatever happened to the file. *)
Theorem X12_run_final_members
    (atan2_generic : float -> float -> float) (ticks : list Tick)
    (n n' : WaypointMaker * World) :
  save_waypoint_ (fst n) = false ->
  run atan2_generic ticks n = Some n' ->
  fst n' =
    {| current_pose_ := latest_pose (dispatched ticks) (current_pose_ (fst n));
       save_waypoint_ := false;
       waypoint_id_ := waypoint_id_ (fst n) + Z.of_nat (length (saving_ticks ticks)) |}.
Proof.
  intros Hf Hrun. apply run_summary in Hrun; [|exact Hf]. subst n'. reflexivity.
Qed.

Lemma X12_run_final_members_witness :
  run no_generic Sample2.session (WaypointMaker_init, World_at_start Sample2.old_file)
    = Some ({| current_pose_ := Sample2.pose34; save_waypoint_ := false;
               waypoint_id_ := 3 |}, Sample2.session_world)
  /\ {| current_pose_ := Sample2.pose34; save_waypoint_ := false; waypoint_id_ := 3 |}
     = {| current_pose_ :=
            latest_pose (dispatched Sample2.session) (current_pose_ WaypointMaker_init);
          save_waypoint_ := false;
          waypoint_id_ := 0 + Z.of_nat (length (saving_ticks Sample2.session)) |}.
Proof.
  split; [reflexivity|].
  apply (X12_run_final_members no_generic Sample2.session
           (WaypointMaker_init, World_at_start Sample2.old_file)
           ({| current_pose_ := Sample2.pose34; save_waypoint_ := false;
               waypoint_id_ := 3 |}, Sample2.session_world) eq_refl eq_refl).
Defined.
